(** * Patch scripts of pawnsposes: a shallow embedding

    The repository holds four stand-alone Python scripts that patch two
    JavaScript files by text search and replace:

    - [add_pawnsposes_ai.py]       inserts a block of code before an export
                                   statement ([str.replace]);
    - [update_training_section.py] replaces the text between two literal
                                   markers ([str.find] and slices);
    - [fix_parser.py]              replaces the first match of a regular
                                   expression ([re.search] and slices);
    - [check_parser.py]            prints the first match of a regular
                                   expression and writes nothing.

    A Python [str] is a sequence of code points: a document is a list of
    code points ([N]).  Offsets are [Z], as [str.find] answers [-1] and
    slices accept negative bounds.  The file system is a finite map from
    paths to documents; a script is a computation over it that may raise,
    and that records what it prints and what it writes.  Opening a missing
    file raises; decoding and other failures of the operating system are
    not modelled. *)

From Stdlib Require Import ZArith Lia List Ascii.
From stdpp Require Import base option list strings gmap.

Local Open Scope Z_scope.

(** ** Documents *)

Abbreviation doc := (list N).

(** Code points of an ASCII literal. *)
Fixpoint str (s : string) : doc :=
  match s with
  | EmptyString => []
  | String a s' => Ascii.N_of_ascii a :: str s'
  end.

Definition LF : N := 10%N.
Definition DQUOTE : N := 34%N.

(** [len(s)] *)
Definition len (s : doc) : Z := Z.of_nat (length s).

Module Py.

(** *** Slices

    [s[lo:hi]] with the bounds of CPython's [PySlice_AdjustIndices] for
    step 1: a negative bound counts from the end, and both are clamped to
    [0 .. len(s)]. *)

Definition adjust (n i : Z) : Z :=
  if i <? 0 then Z.max 0 (i + n) else Z.min i n.

Definition slice (s : doc) (lo hi : Z) : doc :=
  let a := adjust (len s) lo in
  let b := adjust (len s) hi in
  take (Z.to_nat (b - a)) (drop (Z.to_nat a) s).

(** [s[:hi]] *)
Definition slice_to (s : doc) (hi : Z) : doc :=
  take (Z.to_nat (adjust (len s) hi)) s.

(** [s[lo:]] *)
Definition slice_from (s : doc) (lo : Z) : doc :=
  drop (Z.to_nat (adjust (len s) lo)) s.

(** *** Substring search *)

(** [s.startswith(sub)] *)
Fixpoint starts_with (sub s : doc) : bool :=
  match sub, s with
  | [], _ => true
  | _ :: _, [] => false
  | a :: sub', b :: s' => (a =? b)%N && starts_with sub' s'
  end.

(** Offset of the leftmost occurrence of [sub] in [s]. *)
Fixpoint first_occurrence (sub s : doc) : option nat :=
  if starts_with sub s then Some 0%nat
  else match s with
       | [] => None
       | _ :: t => S <$> first_occurrence sub t
       end.

(** [s.find(sub, start)]: a negative [start] counts from the end and is
    clamped to 0; the answer is the lowest offset at or after [start]
    where [sub] occurs, or [-1]. *)
Definition find (s sub : doc) (start : Z) : Z :=
  let st := if start <? 0 then Z.max 0 (start + len s) else start in
  if len s - st <? len sub then -1
  else match first_occurrence sub (drop (Z.to_nat st) s) with
       | Some k => st + Z.of_nat k
       | None => -1
       end.

(** [sub in s] *)
Definition contains (sub s : doc) : bool :=
  bool_decide (find s sub 0 ≠ -1).

(** *** [str.replace]

    [s.replace(old, new)] replaces every occurrence of [old], scanning
    from the left and resuming after each replaced occurrence.  An empty
    [old] matches before every code point and at the end. *)

Fixpoint interleave (new s : doc) : doc :=
  match s with
  | [] => new
  | c :: t => new ++ c :: interleave new t
  end.

Fixpoint replace_loop (fuel : nat) (s old new : doc) : doc :=
  match fuel with
  | O => s
  | S fuel' =>
      match first_occurrence old s with
      | None => s
      | Some i =>
          take i s ++ new ++
          replace_loop fuel' (drop (i + length old) s) old new
      end
  end.

Definition replace (s old new : doc) : doc :=
  match old with
  | [] => interleave new s
  | _ :: _ => replace_loop (S (length s)) s old new
  end.

End Py.

(** ** Regular expressions

    [re.search] belongs to Python's library, not to the repository: the
    scripts are verified for every search function (a section variable
    below).  [Re] is a reference matcher for the fragment of the syntax the
    three patterns of the scripts are written in (literals, escapes,
    bracket sets, [*] and [*?], [^]), a backtracking matcher taking the
    leftmost match; it lets the scripts run on concrete documents.  A
    pattern outside the fragment is not read, and the search answers
    [None]. *)

Module Re.

Inductive item := IChar (c : N) | ISpace | INotSpace.
Inductive atom := Lit (c : N) | OneOf (negated : bool) (items : list item) | Bol.
Inductive quant := Once | Star | StarLazy.
Definition regex := list (atom * quant).

(** [\s] on [str] patterns: the code points of [str.isspace]. *)
Definition is_space (c : N) : bool :=
  ((9 <=? c) && (c <=? 13) || (28 <=? c) && (c <=? 32) || (c =? 133)
   || (c =? 160) || (c =? 5760) || (8192 <=? c) && (c <=? 8202)
   || (c =? 8232) || (c =? 8233) || (c =? 8239) || (c =? 8287)
   || (c =? 12288))%N.

Definition is_alnum (c : N) : bool :=
  ((48 <=? c) && (c <=? 57) || (65 <=? c) && (c <=? 90)
   || (97 <=? c) && (c <=? 122))%N.

Definition item_accepts (it : item) (c : N) : bool :=
  match it with
  | IChar d => (c =? d)%N
  | ISpace => is_space c
  | INotSpace => negb (is_space c)
  end.

Definition accepts (a : atom) (c : N) : bool :=
  match a with
  | Lit d => (c =? d)%N
  | OneOf neg its => xorb neg (existsb (fun it => item_accepts it c) its)
  | Bol => false
  end.

(** *** Reading a pattern *)

Definition escape (e : N) : option item :=
  if (e =? 115)%N then Some ISpace                  (* \s *)
  else if (e =? 83)%N then Some INotSpace           (* \S *)
  else if (e =? 110)%N then Some (IChar LF)         (* \n *)
  else if is_alnum e then None
  else Some (IChar e).

Definition atom_of_item (it : item) : atom :=
  match it with
  | IChar c => Lit c
  | _ => OneOf false [it]
  end.

(** Items of a bracket set, up to the closing bracket. *)
Fixpoint set_items (src : doc) : option (list item * doc) :=
  match src with
  | [] => None
  | c :: rest =>
      if (c =? 93)%N then Some ([], rest)           (* ] *)
      else if (c =? 45)%N then None                 (* ranges: not read *)
      else if (c =? 92)%N then
        match rest with
        | e :: rest' =>
            it ← escape e;
            '(its, out) ← set_items rest';
            Some (it :: its, out)
        | [] => None
        end
      else '(its, out) ← set_items rest; Some (IChar c :: its, out)
  end.

Definition read_atom (src : doc) : option (atom * doc) :=
  match src with
  | [] => None
  | c :: rest =>
      if (c =? 94)%N then Some (Bol, rest)          (* ^ *)
      else if (c =? 92)%N then
        match rest with
        | e :: rest' => it ← escape e; Some (atom_of_item it, rest')
        | [] => None
        end
      else if (c =? 91)%N then                      (* [ *)
        match rest with
        | 94%N :: rest' =>
            '(its, out) ← set_items rest'; Some (OneOf true its, out)
        | _ => '(its, out) ← set_items rest; Some (OneOf false its, out)
        end
      else if existsb (N.eqb c) [46; 43; 63; 42; 40; 41; 124; 36; 123]%N
      then None                                     (* . + ? * ( ) | $ { *)
      else Some (Lit c, rest)
  end.

Definition read_quant (a : atom) (src : doc) : option (quant * doc) :=
  match src with
  | 42%N :: 63%N :: rest => if a is Bol then None else Some (StarLazy, rest)
  | 42%N :: rest => if a is Bol then None else Some (Star, rest)
  | _ => Some (Once, src)
  end.

Fixpoint parse_loop (fuel : nat) (src : doc) : option regex :=
  match fuel with
  | O => None
  | S fuel' =>
      match src with
      | [] => Some []
      | _ =>
          '(a, rest) ← read_atom src;
          '(q, rest') ← read_quant a rest;
          r ← parse_loop fuel' rest';
          Some ((a, q) :: r)
      end
  end.

Definition parse (src : doc) : option regex := parse_loop (S (length src)) src.

(** *** Matching

    [before] is the code point before the current position, if any: [^]
    matches at the start of the document and, under [re.MULTILINE], after
    a line feed.  The matchers answer the length of the match. *)

Definition at_bol (multiline : bool) (before : option N) : bool :=
  match before with
  | None => true
  | Some c => multiline && (c =? LF)%N
  end.

Fixpoint star_lazy (k : option N → doc → option nat) (a : atom)
    (before : option N) (s : doc) : option nat :=
  match k before s with
  | Some n => Some n
  | None =>
      match s with
      | c :: t => if accepts a c then S <$> star_lazy k a (Some c) t else None
      | [] => None
      end
  end.

Fixpoint star_greedy (k : option N → doc → option nat) (a : atom)
    (before : option N) (s : doc) : option nat :=
  match s with
  | c :: t =>
      if accepts a c then
        match star_greedy k a (Some c) t with
        | Some n => Some (S n)
        | None => k before s
        end
      else k before s
  | [] => k before s
  end.

Fixpoint match_here (multiline : bool) (r : regex) (before : option N)
    (s : doc) : option nat :=
  match r with
  | [] => Some 0%nat
  | (Bol, _) :: r' =>
      if at_bol multiline before then match_here multiline r' before s
      else None
  | (a, Once) :: r' =>
      match s with
      | c :: t =>
          if accepts a c then S <$> match_here multiline r' (Some c) t
          else None
      | [] => None
      end
  | (a, Star) :: r' => star_greedy (match_here multiline r') a before s
  | (a, StarLazy) :: r' => star_lazy (match_here multiline r') a before s
  end.

(** Leftmost match: its first and one-past-last offsets. *)
Fixpoint search_from (multiline : bool) (r : regex) (before : option N)
    (s : doc) (i : nat) : option (nat * nat) :=
  match match_here multiline r before s with
  | Some n => Some (i, (i + n)%nat)
  | None =>
      match s with
      | c :: t => search_from multiline r (Some c) t (S i)
      | [] => None
      end
  end.

Definition search (pattern : doc) (multiline : bool) (s : doc)
    : option (nat * nat) :=
  r ← parse pattern; search_from multiline r None s 0%nat.

End Re.

(** ** Scripts: files, output, exceptions *)

(** What a script prints, line by line. *)
Inductive message :=
  (* add_pawnsposes_ai.py *)
  | AddedFunctions
  | AddedCharacters (n : Z)
  | ExportNotFound
  (* update_training_section.py *)
  | SectionUpdated
  | ReplacedCharacters (n : Z)
  | SectionNotFound
  | ShowStartIdx (i : Z)
  | ShowEndIdx (i : Z)
  | FoundStartAt (i : Z)
  | ShowContext (text : doc)
  (* fix_parser.py *)
  | FoundFunctionAt (first last : Z)
  | OldFunctionLength (n : Z)
  | NewFunctionLength (n : Z)
  | FunctionReplaced
  | FunctionNotFoundBang
  | SearchingSimpler
  | DeclarationFound
  | DeclarationNotFound
  (* check_parser.py *)
  | FunctionLength (n : Z)
  | FunctionStartBanner
  | ShowText (text : doc)
  | MiddleContentBanner
  | FunctionEndBanner
  | FunctionNotFound.

Inductive event :=
  | Printed (m : message)
  | Wrote (path : string) (text : doc).

Inductive exn := FileNotFoundError (path : string).

Inductive outcome (A : Type) :=
  | Returned (a : A)
  | Raised (e : exn).
Arguments Returned {A} a.
Arguments Raised {A} e.

Record world := World { files : gmap string doc; trace : list event }.

Definition script (A : Type) : Type := world → outcome A * world.

#[export] Instance script_ret : MRet script := λ A a w, (Returned a, w).

#[export] Instance script_bind : MBind script := λ A B f m w,
  match m w with
  | (Returned a, w') => f a w'
  | (Raised e, w') => (Raised e, w')
  end.

(** [with open(path, 'r') as f: f.read()] *)
Definition read_file (path : string) : script doc := λ w,
  match files w !! path with
  | Some text => (Returned text, w)
  | None => (Raised (FileNotFoundError path), w)
  end.

(** [with open(path, 'w') as f: f.write(text)] *)
Definition write_file (path : string) (text : doc) : script unit := λ w,
  (Returned tt,
   World (<[path := text]> (files w)) (trace w ++ [Wrote path text])).

(** [print(...)] *)
Definition print (m : message) : script unit := λ w,
  (Returned tt, World (files w) (trace w ++ [Printed m])).

(** A run starts with nothing printed or written. *)
Definition run (p : script unit) (fs : gmap string doc)
    : outcome unit * world :=
  p (World fs []).

Definition files_after (p : script unit) (fs : gmap string doc)
    : gmap string doc := files (run p fs).2.

Definition trace_of (p : script unit) (fs : gmap string doc) : list event :=
  trace (run p fs).2.

Definition is_write (e : event) : bool :=
  match e with Wrote _ _ => true | Printed _ => false end.

Definition writes (p : script unit) (fs : gmap string doc) : list event :=
  filter (λ e, is_write e = true) (trace_of p fs).

Definition printed (p : script unit) (fs : gmap string doc) : list message :=
  omap (λ e, match e with Printed m => Some m | Wrote _ _ => None end)
       (trace_of p fs).

(** ** The four scripts *)

Definition Reports_js : string := "c:\pawnsposes\src\pages\Reports.js".
Definition fix_parser_txt : string := "c:\pawnsposes\fix_parser.txt".
Definition ReportDisplay_js : string :=
  "d:\pawns-poses\src\pages\ReportDisplay.js".
Definition TRAINING_OPTIONS_UPDATE_txt : string :=
  "d:\pawns-poses\TRAINING_OPTIONS_UPDATE.txt".

(** *** add_pawnsposes_ai.py

    [marker] stands for the literal ['export default Reports;'], which the
    script writes three times: in the test, as the text to replace, and,
    after a line feed, at the end of the text put in its place. *)

Definition export_marker : doc := str "export default Reports;".

Section add_pawnsposes_ai.
(** The triple-quoted block of JavaScript: an opaque payload. *)
Variable new_code : doc.

Definition insert_before (marker : doc) (path : string) : script unit :=
  content ← read_file path;
  if Py.contains marker content then
    let new_content :=
      Py.replace content marker (new_code ++ [LF] ++ marker) in
    write_file path new_content;;
    print AddedFunctions;;
    print (AddedCharacters (len new_code))
  else
    print ExportNotFound.

Definition add_pawnsposes_ai : script unit :=
  insert_before export_marker Reports_js.
End add_pawnsposes_ai.

(** *** update_training_section.py *)

(** The script, with its three literals and its two paths as parameters. *)
Definition replace_between (start_marker end_marker tail : doc)
    (path payload_path : string) : script unit :=
  content ← read_file path;
  replacement ← read_file payload_path;
  let start_idx := Py.find content start_marker 0 in
  let end_idx := Py.find content end_marker start_idx in
  if bool_decide (start_idx ≠ -1) && bool_decide (end_idx ≠ -1) then
    let new_content :=
      ((Py.slice_to content start_idx ++ replacement) ++ tail)
      ++ Py.slice_from content (end_idx + len end_marker) in
    write_file path new_content;;
    print SectionUpdated;;
    print (ReplacedCharacters (end_idx - start_idx))
  else
    print SectionNotFound;;
    print (ShowStartIdx start_idx);;
    print (ShowEndIdx end_idx);;
    if bool_decide (start_idx ≠ -1) then
      print (FoundStartAt start_idx);;
      print (ShowContext (Py.slice content start_idx (start_idx + 100)))
    else mret tt.

Definition start_marker : doc :=
  str "          <div className=" ++ [DQUOTE] ++ str "dashboard-panel"
  ++ [DQUOTE] ++ str ">" ++ [LF]
  ++ str "            <h3>Start Your Training</h3>".

Definition end_marker : doc :=
  str "          </div>" ++ [LF] ++ str "        </div>" ++ [LF; LF]
  ++ str "        {/* Back to Reports Button */}".

(** The literal the script puts after the replacement text. *)
Definition section_tail : doc :=
  [LF] ++ str "        </div>" ++ [LF; LF]
  ++ str "        {/* Back to Reports Button */}".

Definition update_training_section : script unit :=
  replace_between start_marker end_marker section_tail
    ReportDisplay_js TRAINING_OPTIONS_UPDATE_txt.

(** *** fix_parser.py and check_parser.py *)

Definition CHECK_MARK : N := 9989%N. (* U+2705 *)

Definition fix_pattern : doc :=
  str "// " ++ [CHECK_MARK]
  ++ str " Helper: Parse weaknesses from unified response\s*\nconst parseWeaknessesFromUnified = \(weaknessesText\) => \{[\s\S]*?return weaknesses;\s*\n\};".

Definition simple_pattern : doc := str "const parseWeaknessesFromUnified".

Definition check_pattern : doc :=
  str "const parseUnifiedGeminiResponse = \(analysisText, gamesData, formData\) => \{[\s\S]*?^};".

Section regex_scripts.
(** [re.search(pattern, string, flags)]: the span of the match, if any;
    the flag is [re.MULTILINE]. *)
Variable re_search : doc → bool → doc → option (nat * nat).

Definition fix_parser : script unit :=
  content ← read_file Reports_js;
  new_function ← read_file fix_parser_txt;
  match re_search fix_pattern false content with
  | Some (first, last) =>
      let m_start := Z.of_nat first in
      let m_end := Z.of_nat last in
      print (FoundFunctionAt m_start m_end);;
      print (OldFunctionLength (len (Py.slice content m_start m_end)));;
      print (NewFunctionLength (len new_function));;
      let new_content :=
        (Py.slice_to content m_start ++ new_function)
        ++ Py.slice_from content m_end in
      write_file Reports_js new_content;;
      print FunctionReplaced
  | None =>
      print FunctionNotFoundBang;;
      print SearchingSimpler;;
      if re_search simple_pattern false content is Some _
      then print DeclarationFound
      else print DeclarationNotFound
  end.

Definition check_parser : script unit :=
  content ← read_file Reports_js;
  match re_search check_pattern true content with
  | Some (first, last) =>
      let func := Py.slice content (Z.of_nat first) (Z.of_nat last) in
      print (FunctionLength (len func));;
      print FunctionStartBanner;;
      print (ShowText (Py.slice_to func 2000));;
      print MiddleContentBanner;;
      print (ShowText (Py.slice_from func (-1000)));;
      print FunctionEndBanner
  | None => print FunctionNotFound
  end.
End regex_scripts.

(** ** Occurrences, as the specification speaks of them *)

(** [sub] occurs in [s] at offset [j]. *)
Definition occurs_at (sub s : doc) (j : nat) : Prop :=
  ∃ pre post, s = pre ++ sub ++ post ∧ length pre = j.

(** The leftmost occurrence of [sub] in [s] is at offset [i]. *)
Definition first_at (sub s : doc) (i : nat) : Prop :=
  occurs_at sub s i ∧ ∀ j, occurs_at sub s j → (i ≤ j)%nat.

(** The leftmost occurrence of [sub] in [s] at or after [from] is at [i]. *)
Definition first_from (sub s : doc) (from i : nat) : Prop :=
  occurs_at sub s i ∧ (from ≤ i)%nat
  ∧ ∀ j, (from ≤ j)%nat → occurs_at sub s j → (i ≤ j)%nat.

(** No occurrence of [sub] in [s] at or after [from]. *)
Definition absent_from (sub s : doc) (from : nat) : Prop :=
  ∀ j, (from ≤ j)%nat → ¬ occurs_at sub s j.

(** [a] and [b] agree as far as both go: one is a prefix of the other. *)
Definition clash (a b : doc) : bool :=
  Py.starts_with a b || Py.starts_with b a.

(** No occurrence of [em] can begin inside an occurrence of [sm]. *)
Definition markers_apart (sm em : doc) : bool :=
  forallb (λ d, negb (clash (drop d sm) em)) (seq 0 (length sm)).

(** A run of [p] writes nothing and leaves the files as they were, or
    writes once, to [target], and changes that file alone. *)
Definition touches_only (target : string) (p : script unit)
    (fs : gmap string doc) : Prop :=
  (writes p fs = [] ∧ files_after p fs = fs)
  ∨ ∃ text, writes p fs = [Wrote target text]
            ∧ files_after p fs = <[target := text]> fs.

(** A small [Reports.js] to run the scripts on. *)
Definition sample_reports : doc :=
  str "// " ++ [CHECK_MARK]
  ++ str " Helper: Parse weaknesses from unified response" ++ [LF]
  ++ str "const parseWeaknessesFromUnified = (weaknessesText) => {" ++ [LF]
  ++ str "  return weaknesses;" ++ [LF] ++ str "};" ++ [LF]
  ++ str "const parseUnifiedGeminiResponse = (analysisText, gamesData, formData) => {"
  ++ [LF] ++ str "  return {};" ++ [LF] ++ str "};" ++ [LF]
  ++ export_marker ++ [LF].

Definition sample_files : gmap string doc :=
  {[ Reports_js := sample_reports; fix_parser_txt := str "// fixed" ]}.

(** Unfolds the monad of scripts. *)
Ltac run_script :=
  unfold run, mbind, script_bind, mret, script_ret,
    read_file, write_file, print; simpl.

(** * Examples *)

Example find_ex1 : Py.find (str "hello world") (str "o") 5 = 7.
Proof. reflexivity. Qed.
Example find_ex2 : Py.find (str "hello") (str "l") (-1) = -1.
Proof. reflexivity. Qed.
Example find_ex3 : Py.find (str "hello") (str "o") (-1) = 4.
Proof. reflexivity. Qed.
Example find_ex4 : Py.find (str "abc") [] 3 = 3 /\ Py.find (str "abc") [] 4 = -1.
Proof. split; reflexivity. Qed.
Example replace_ex1 : Py.replace (str "aXbXc") (str "X") (str "--") = str "a--b--c".
Proof. reflexivity. Qed.
Example replace_ex2 : Py.replace (str "abc") [] (str "-") = str "-a-b-c-".
Proof. reflexivity. Qed.
Example replace_ex3 : Py.replace (str "aaa") (str "aa") (str "b") = str "ba".
Proof. reflexivity. Qed.
Example slice_ex1 : Py.slice (str "abcdef") (-2) 100 = str "ef".
Proof. reflexivity. Qed.

Example search_ex1 :
  Re.search fix_pattern false sample_reports = Some (0, 132)%nat.
Proof. by vm_compute. Qed.

Example search_ex2 :
  Re.search check_pattern true sample_reports = Some (133, 224)%nat
  ∧ Re.search check_pattern false sample_reports = None.
Proof. split; by vm_compute. Qed.

Example check_parser_ex :
  printed (check_parser Re.search) sample_files =
    let func := Py.slice sample_reports 133 224 in
    [FunctionLength 91; FunctionStartBanner; ShowText func;
     MiddleContentBanner; ShowText func; FunctionEndBanner].
Proof. by vm_compute. Qed.

Example fix_parser_ex :
  files_after (fix_parser Re.search) sample_files !! Reports_js =
    Some (str "// fixed" ++ Py.slice_from sample_reports 132).
Proof. by vm_compute. Qed.

Example add_pawnsposes_ai_ex :
  files_after (add_pawnsposes_ai (str "const y = 1;")) sample_files
    !! Reports_js =
    Some (Py.slice_to sample_reports 225 ++ str "const y = 1;" ++ [LF]
          ++ export_marker ++ [LF]).
Proof. by vm_compute. Qed.

Example missing_file_ex :
  run update_training_section sample_files =
    (Raised (FileNotFoundError ReportDisplay_js), World sample_files []).
Proof. by vm_compute. Qed.

(** * Properties of the search primitives *)

Section search_facts.
Implicit Types sub s old new : doc.

Lemma starts_with_prefix sub s :
  Py.starts_with sub s = true ↔ ∃ post, s = sub ++ post.
Proof.
  revert s. induction sub as [|a sub IH]; intros s; simpl.
  - split; [eauto | done].
  - destruct s as [|b s].
    + split; [done | intros [post Hp]; discriminate].
    + rewrite andb_true_iff, N.eqb_eq, IH. split.
      * intros [-> [post ->]]. eauto.
      * intros [post Hp]. injection Hp as -> ->. eauto.
Qed.

Lemma occurs_at_drop sub s j :
  occurs_at sub s j
  ↔ (j ≤ length s)%nat ∧ Py.starts_with sub (drop j s) = true.
Proof.
  rewrite starts_with_prefix. split.
  - intros (pre & post & -> & <-). split.
    + rewrite length_app. lia.
    + exists post. by rewrite drop_app_length.
  - intros [Hj [post Hp]]. exists (take j s), post. split.
    + by rewrite <- Hp, take_drop.
    + rewrite length_take. lia.
Qed.

Lemma occurs_at_bound sub s j :
  occurs_at sub s j → (j + length sub ≤ length s)%nat.
Proof. intros (pre & post & -> & <-). rewrite !length_app. lia. Qed.

Lemma occurs_at_0 sub s :
  occurs_at sub s 0 ↔ Py.starts_with sub s = true.
Proof.
  rewrite occurs_at_drop. simpl. split; [tauto | split; [lia | done]].
Qed.

Lemma occurs_at_S sub c s j :
  occurs_at sub (c :: s) (S j) ↔ occurs_at sub s j.
Proof. rewrite !occurs_at_drop. simpl. split; intros [? ?]; split; try lia; done. Qed.

Lemma occurs_at_app_l sub pre s j :
  occurs_at sub s j → occurs_at sub (pre ++ s) (length pre + j).
Proof.
  intros (p & q & -> & <-). exists (pre ++ p), q.
  by rewrite length_app, <- app_assoc.
Qed.

Lemma occurs_at_slice sub s j :
  occurs_at sub s j
  ↔ (j + length sub ≤ length s)%nat ∧ take (length sub) (drop j s) = sub.
Proof.
  split.
  - intros H. split; [by apply occurs_at_bound |].
    destruct H as (pre & post & -> & <-).
    by rewrite drop_app_length, take_app_length.
  - intros [Hb Ht]. exists (take j s), (drop (j + length sub) s). split.
    + rewrite <- Ht at 1. rewrite <- drop_drop, take_drop.
      by rewrite take_drop.
    + rewrite length_take. lia.
Qed.

(** [first_occurrence] finds the leftmost occurrence, and only fails
    when there is none. *)
Lemma first_occurrence_Some sub s i :
  Py.first_occurrence sub s = Some i ↔ first_at sub s i.
Proof.
  revert i. induction s as [|c s IH]; intros i; simpl.
  - destruct (Py.starts_with sub []) eqn:E.
    + split.
      * intros [= <-]. split; [by apply occurs_at_0 | intros; lia].
      * intros [_ Hmin]. f_equal.
        specialize (Hmin 0%nat (proj2 (occurs_at_0 _ _) E)). lia.
    + split; [done |]. intros [Ho _].
      apply occurs_at_drop in Ho as [Hi Ho]. simpl in Hi.
      replace i with 0%nat in Ho by lia. simpl in Ho. congruence.
  - destruct (Py.starts_with sub (c :: s)) eqn:E.
    + split.
      * intros [= <-]. split; [by apply occurs_at_0 | intros; lia].
      * intros [_ Hmin]. f_equal.
        specialize (Hmin 0%nat (proj2 (occurs_at_0 _ _) E)). lia.
    + destruct i as [|i].
      * split.
        -- destruct (Py.first_occurrence sub s); done.
        -- intros [Ho _]. apply occurs_at_0 in Ho. congruence.
      * transitivity (Py.first_occurrence sub s = Some i).
        { destruct (Py.first_occurrence sub s); simpl; split; congruence. }
        rewrite IH. unfold first_at. rewrite occurs_at_S. split.
        -- intros [Ho Hmin]. split; [done |]. intros [|j] Hj.
           ++ apply occurs_at_0 in Hj. congruence.
           ++ apply occurs_at_S in Hj. apply Hmin in Hj. lia.
        -- intros [Ho Hmin]. split; [done |]. intros j Hj.
           apply occurs_at_S with (c := c) in Hj. apply Hmin in Hj. lia.
Qed.

Lemma first_occurrence_None sub s :
  Py.first_occurrence sub s = None ↔ ∀ j, ¬ occurs_at sub s j.
Proof.
  induction s as [|c s IH]; simpl.
  - destruct (Py.starts_with sub []) eqn:E.
    + split; [done |]. intros H. by destruct (H 0%nat); apply occurs_at_0.
    + split; [| done]. intros _ j Ho.
      apply occurs_at_drop in Ho as [Hi Ho]. simpl in Hi.
      replace j with 0%nat in Ho by lia. simpl in Ho. congruence.
  - destruct (Py.starts_with sub (c :: s)) eqn:E.
    + split; [done |]. intros H. by destruct (H 0%nat); apply occurs_at_0.
    + transitivity (Py.first_occurrence sub s = None).
      { destruct (Py.first_occurrence sub s); simpl; split; congruence. }
      rewrite IH. split.
      * intros H [|j] Hj.
        -- apply occurs_at_0 in Hj. congruence.
        -- apply occurs_at_S in Hj. by apply (H j).
      * intros H j Hj. apply (H (S j)). by apply occurs_at_S.
Qed.

Lemma first_occurrence_exists sub s j :
  occurs_at sub s j →
  ∃ i, Py.first_occurrence sub s = Some i ∧ (i ≤ j)%nat.
Proof.
  intros Ho. destruct (Py.first_occurrence sub s) as [i|] eqn:E.
  - exists i. split; [done |].
    apply first_occurrence_Some in E as [_ Hmin]. by apply Hmin.
  - exfalso. by apply (proj1 (first_occurrence_None _ _) E j).
Qed.

Lemma first_at_split sub s i :
  first_at sub s i → s = take i s ++ sub ++ drop (i + length sub) s.
Proof.
  intros [(pre & post & -> & <-) _].
  rewrite take_app_length, <- drop_drop, drop_app_length.
  by rewrite drop_app_length.
Qed.
End search_facts.

Section find_facts.
Implicit Types sub s : doc.

Lemma occurs_at_drop_shift sub s n k :
  (n ≤ length s)%nat →
  occurs_at sub (drop n s) k ↔ occurs_at sub s (n + k).
Proof.
  intros Hn. rewrite !occurs_at_drop, length_drop, drop_drop.
  split; intros [? ?]; split; try lia; done.
Qed.

(** [s.find(sub, from)] for an offset [from] inside the document. *)
Lemma find_unfold sub s from :
  (from ≤ length s)%nat →
  Py.find s sub (Z.of_nat from) =
    match Py.first_occurrence sub (drop from s) with
    | Some k => Z.of_nat (from + k)
    | None => -1
    end.
Proof.
  intros Hn. unfold Py.find.
  destruct (Z.ltb_spec (Z.of_nat from) 0) as [|_]; [lia |].
  rewrite Nat2Z.id.
  destruct (Py.first_occurrence sub (drop from s)) as [k|] eqn:E.
  - apply first_occurrence_Some in E as [Ho _].
    apply occurs_at_bound in Ho. rewrite length_drop in Ho.
    unfold len. destruct (Z.ltb_spec (Z.of_nat (length s) - Z.of_nat from)
                                     (Z.of_nat (length sub))); lia.
  - by destruct (_ <? _).
Qed.

Lemma find_beyond sub s st : len s < st → Py.find s sub st = -1.
Proof.
  intros H. unfold Py.find, len in *.
  destruct (Z.ltb_spec st 0) as [|_]; [lia |].
  destruct (Z.ltb_spec (Z.of_nat (length s) - st) (Z.of_nat (length sub)));
    [done | lia].
Qed.

Lemma find_first_from sub s from i :
  (from ≤ length s)%nat →
  Py.find s sub (Z.of_nat from) = Z.of_nat i ↔ first_from sub s from i.
Proof.
  intros Hn. rewrite find_unfold by done. unfold first_from.
  destruct (Py.first_occurrence sub (drop from s)) as [k|] eqn:E.
  - apply first_occurrence_Some in E as [Ho Hmin].
    apply occurs_at_drop_shift in Ho; [| done]. split.
    + intros Hi. apply Nat2Z.inj in Hi. subst i.
      split; [done |]. split; [lia |]. intros j Hj Hoj.
      replace j with (from + (j - from))%nat in Hoj by lia.
      apply occurs_at_drop_shift in Hoj; [| done].
      apply Hmin in Hoj. lia.
    + intros (Hoi & Hle & Hmin'). f_equal.
      apply Hmin' in Ho; [| lia].
      replace i with (from + (i - from))%nat in Hoi by lia.
      apply occurs_at_drop_shift in Hoi; [| done].
      apply Hmin in Hoi. lia.
  - split; [lia |]. intros (Hoi & Hle & _). exfalso.
    replace i with (from + (i - from))%nat in Hoi by lia.
    apply occurs_at_drop_shift in Hoi; [| done].
    by apply (proj1 (first_occurrence_None _ _) E (i - from)%nat).
Qed.

Lemma find_absent sub s from :
  Py.find s sub (Z.of_nat from) = -1 ↔ absent_from sub s from.
Proof.
  destruct (decide (from ≤ length s)%nat) as [Hn|Hn].
  - rewrite find_unfold by done. unfold absent_from.
    destruct (Py.first_occurrence sub (drop from s)) as [k|] eqn:E.
    + split; [lia |]. intros H. exfalso.
      apply first_occurrence_Some in E as [Ho _].
      apply occurs_at_drop_shift in Ho; [| done].
      apply (H (from + k)%nat); [lia | done].
    + split; [| done]. intros _ j Hj Hoj.
      replace j with (from + (j - from))%nat in Hoj by lia.
      apply occurs_at_drop_shift in Hoj; [| done].
      by apply (proj1 (first_occurrence_None _ _) E (j - from)%nat).
  - rewrite find_beyond by (unfold len; lia). split; [| done].
    intros _ j Hj Hoj. apply occurs_at_bound in Hoj. lia.
Qed.

(** What [find] can answer, whatever [start] is. *)
Lemma find_range sub s st :
  Py.find s sub st = -1
  ∨ (0 ≤ Py.find s sub st ∧ Py.find s sub st + len sub ≤ len s
     ∧ (0 ≤ st → st ≤ Py.find s sub st)).
Proof.
  unfold Py.find.
  set (st' := if st <? 0 then Z.max 0 (st + len s) else st).
  assert (0 ≤ st' ∧ (0 ≤ st → st' = st)) as [Hst Heq].
  { subst st'. destruct (Z.ltb_spec st 0); lia. }
  destruct (Z.ltb_spec (len s - st') (len sub)); [by left |].
  destruct (Py.first_occurrence sub (drop (Z.to_nat st') s)) as [k|] eqn:E;
    [right | by left].
  apply first_occurrence_Some in E as [Ho _].
  apply occurs_at_bound in Ho. rewrite length_drop in Ho.
  unfold len in *. lia.
Qed.

Lemma find_nonneg sub s st :
  Py.find s sub st ≠ -1 →
  ∃ i, Py.find s sub st = Z.of_nat i ∧ (i + length sub ≤ length s)%nat.
Proof.
  intros H. destruct (find_range sub s st) as [|(H0 & Hb & _)]; [done |].
  exists (Z.to_nat (Py.find s sub st)). unfold len in *. lia.
Qed.

Lemma contains_first_occurrence sub s :
  Py.contains sub s = bool_decide (is_Some (Py.first_occurrence sub s)).
Proof.
  unfold Py.contains.
  change (Py.find s sub 0) with (Py.find s sub (Z.of_nat 0)).
  rewrite find_unfold by lia.
  rewrite drop_0. destruct (Py.first_occurrence sub s).
  - rewrite !bool_decide_eq_true_2; [done | eauto | lia].
  - rewrite !bool_decide_eq_false_2; [done | by intros [? ?] | lia].
Qed.

Lemma contains_occurs sub s :
  Py.contains sub s = true ↔ ∃ j, occurs_at sub s j.
Proof.
  rewrite contains_first_occurrence, bool_decide_eq_true. split.
  - intros [i Hi]. apply first_occurrence_Some in Hi as [Ho _]. eauto.
  - intros [j Hj]. apply first_occurrence_exists in Hj as (i & -> & _). eauto.
Qed.

Lemma slice_to_take s (n : nat) :
  (n ≤ length s)%nat → Py.slice_to s (Z.of_nat n) = take n s.
Proof.
  intros H. unfold Py.slice_to, Py.adjust, len.
  destruct (Z.ltb_spec (Z.of_nat n) 0); [lia |]. f_equal. lia.
Qed.

Lemma slice_from_drop s (n : nat) :
  (n ≤ length s)%nat → Py.slice_from s (Z.of_nat n) = drop n s.
Proof.
  intros H. unfold Py.slice_from, Py.adjust, len.
  destruct (Z.ltb_spec (Z.of_nat n) 0); [lia |]. f_equal. lia.
Qed.

Lemma slice_take_drop s (a b : nat) :
  (a ≤ b)%nat → (b ≤ length s)%nat →
  Py.slice s (Z.of_nat a) (Z.of_nat b) = take (b - a) (drop a s).
Proof.
  intros Hab Hb. unfold Py.slice, Py.adjust, len.
  destruct (Z.ltb_spec (Z.of_nat a) 0); [lia |].
  destruct (Z.ltb_spec (Z.of_nat b) 0); [lia |].
  f_equal; [lia |]. f_equal. lia.
Qed.
End find_facts.

Section replace_facts.
Implicit Types s old new : doc.

Lemma replace_loop_absent fuel s old new :
  Py.first_occurrence old s = None → Py.replace_loop fuel s old new = s.
Proof. intros H. destruct fuel; simpl; [done | by rewrite H]. Qed.

Lemma replace_loop_step fuel s old new i :
  Py.first_occurrence old s = Some i →
  Py.replace_loop (S fuel) s old new =
    take i s ++ new ++
    Py.replace_loop fuel (drop (i + length old) s) old new.
Proof. intros H. simpl. by rewrite H. Qed.

(** The loop never runs out of fuel: any fuel above the length of the
    text gives the same result, so [replace] obeys the equation of the
    scan it models. *)
Lemma replace_loop_fuel n m s old new :
  old ≠ [] → (length s < n)%nat → (length s < m)%nat →
  Py.replace_loop n s old new = Py.replace_loop m s old new.
Proof.
  intros Hold. revert m s.
  induction n as [|n IH]; intros [|m] s Hn Hm; try lia. simpl.
  destruct (Py.first_occurrence old s) as [i|] eqn:E; [| done].
  apply first_occurrence_Some in E as [Ho _].
  apply occurs_at_bound in Ho.
  assert (0 < length old)%nat by (destruct old; [done | simpl; lia]).
  do 2 f_equal. apply IH; rewrite length_drop; lia.
Qed.

Lemma replace_unfold s old new :
  old ≠ [] →
  Py.replace s old new =
    match Py.first_occurrence old s with
    | Some i => take i s ++ new ++ Py.replace (drop (i + length old) s) old new
    | None => s
    end.
Proof.
  intros Hold. destruct old as [|c old]; [done |]. unfold Py.replace.
  destruct (Py.first_occurrence (c :: old) s) as [i|] eqn:E.
  - rewrite (replace_loop_step _ _ _ _ _ E). do 2 f_equal.
    apply first_occurrence_Some in E as [Ho _].
    apply occurs_at_bound in Ho. simpl in Ho.
    apply replace_loop_fuel; [done | |]; rewrite ?length_drop; simpl; lia.
  - by apply replace_loop_absent.
Qed.

(** One occurrence and none after it: one replacement. *)
Lemma replace_single s old new i :
  first_at old s i →
  absent_from old s (i + length old) →
  Py.replace s old new = take i s ++ new ++ drop (i + length old) s.
Proof.
  intros Hfirst Habs.
  pose proof (occurs_at_bound _ _ _ (proj1 Hfirst)) as Hb.
  assert (Py.first_occurrence old (drop (i + length old) s) = None) as Hrest.
  { apply first_occurrence_None. intros j Hj.
    apply occurs_at_drop_shift in Hj; [| lia]. apply Habs in Hj; [done | lia]. }
  destruct old as [|c old].
  - exfalso. apply (Habs (i + 0)%nat); [simpl; lia |].
    replace (i + 0)%nat with i by lia. apply Hfirst.
  - unfold Py.replace. apply first_occurrence_Some in Hfirst.
    rewrite (replace_loop_step _ _ _ _ _ Hfirst).
    by rewrite replace_loop_absent.
Qed.

(** Putting [ins ++ old] in place of [old] never shortens the text, and
    lengthens it by at least [ins] when [old] occurs. *)
Lemma replace_loop_grows fuel s old ins :
  (length s ≤ length (Py.replace_loop fuel s old (ins ++ old)))%nat.
Proof.
  revert s. induction fuel as [|fuel IH]; intros s; simpl; [done |].
  destruct (Py.first_occurrence old s) as [i|] eqn:E; [| done].
  apply first_occurrence_Some in E.
  pose proof (occurs_at_bound _ _ _ (proj1 E)) as Hb.
  specialize (IH (drop (i + length old) s)).
  rewrite length_drop in IH.
  rewrite !length_app, length_take. lia.
Qed.

Lemma interleave_length new s :
  length (Py.interleave new s) = (length s + (length s + 1) * length new)%nat.
Proof.
  induction s as [|c s IH]; simpl; [lia |].
  rewrite length_app. simpl. rewrite IH. lia.
Qed.

Lemma replace_grows s old ins j :
  occurs_at old s j →
  (length s + length ins ≤ length (Py.replace s old (ins ++ old)))%nat.
Proof.
  intros Ho. destruct old as [|c old].
  - simpl. rewrite interleave_length, app_nil_r. nia.
  - apply first_occurrence_exists in Ho as (i & Hi & _).
    unfold Py.replace. rewrite (replace_loop_step _ _ _ _ _ Hi).
    apply first_occurrence_Some in Hi.
    pose proof (occurs_at_bound _ _ _ (proj1 Hi)) as Hb.
    pose proof (replace_loop_grows (length s)
                  (drop (i + length (c :: old)) s) (c :: old) ins) as Hg.
    rewrite length_drop in Hg.
    rewrite !length_app, length_take. lia.
Qed.

(** The replaced text still holds [old]. *)
Lemma replace_keeps_marker s old ins j :
  occurs_at old s j → ∃ j', occurs_at old (Py.replace s old (ins ++ old)) j'.
Proof.
  intros Ho. destruct old as [|c old].
  - exists 0%nat. by apply occurs_at_0.
  - apply first_occurrence_exists in Ho as (i & Hi & _).
    unfold Py.replace. rewrite (replace_loop_step _ _ _ _ _ Hi).
    eexists. exists (take i s ++ ins), (Py.replace_loop (length s)
      (drop (i + length (c :: old)) s) (c :: old) (ins ++ c :: old)).
    split; [| done]. by rewrite <- !app_assoc.
Qed.
End replace_facts.

(** * The scripts, run *)

Section run_facts.
Variable new_code : doc.
Variable re_search : doc → bool → doc → option (nat * nat).
Implicit Types fs : gmap string doc.

Lemma insert_before_run marker path fs content :
  fs !! path = Some content →
  run (insert_before new_code marker path) fs =
    if Py.contains marker content then
      let new_content :=
        Py.replace content marker (new_code ++ [LF] ++ marker) in
      (Returned tt,
       World (<[path := new_content]> fs)
         [Wrote path new_content; Printed AddedFunctions;
          Printed (AddedCharacters (len new_code))])
    else (Returned tt, World fs [Printed ExportNotFound]).
Proof.
  intros H. unfold insert_before. run_script. rewrite H.
  by destruct (Py.contains marker content).
Qed.

Lemma insert_before_missing marker path fs :
  fs !! path = None →
  run (insert_before new_code marker path) fs =
    (Raised (FileNotFoundError path), World fs []).
Proof. intros H. unfold insert_before. run_script. by rewrite H. Qed.

Lemma replace_between_run sm em tail path payload fs content replacement :
  fs !! path = Some content →
  fs !! payload = Some replacement →
  let start_idx := Py.find content sm 0 in
  let end_idx := Py.find content em start_idx in
  run (replace_between sm em tail path payload) fs =
    if bool_decide (start_idx ≠ -1) && bool_decide (end_idx ≠ -1) then
      let new_content :=
        ((Py.slice_to content start_idx ++ replacement) ++ tail)
        ++ Py.slice_from content (end_idx + len em) in
      (Returned tt,
       World (<[path := new_content]> fs)
         [Wrote path new_content; Printed SectionUpdated;
          Printed (ReplacedCharacters (end_idx - start_idx))])
    else
      (Returned tt,
       World fs
         ([Printed SectionNotFound; Printed (ShowStartIdx start_idx);
           Printed (ShowEndIdx end_idx)]
          ++ if bool_decide (start_idx ≠ -1) then
               [Printed (FoundStartAt start_idx);
                Printed (ShowContext
                  (Py.slice content start_idx (start_idx + 100)))]
             else [])).
Proof.
  intros H1 H2 start_idx end_idx. subst start_idx end_idx.
  unfold replace_between. run_script. rewrite H1. simpl. rewrite H2. simpl.
  destruct (bool_decide (Py.find content sm 0 ≠ -1));
    destruct (bool_decide (Py.find content em (Py.find content sm 0) ≠ -1));
    reflexivity.
Qed.

Lemma replace_between_missing sm em tail path payload fs :
  fs !! path = None ∨ fs !! payload = None →
  ∃ e, run (replace_between sm em tail path payload) fs =
         (Raised e, World fs []).
Proof.
  intros H. unfold replace_between. run_script.
  destruct (fs !! path) as [content|] eqn:E1; [| eauto].
  destruct H as [|H]; [done |]. simpl. rewrite H. eauto.
Qed.

Lemma fix_parser_run fs content new_function :
  fs !! Reports_js = Some content →
  fs !! fix_parser_txt = Some new_function →
  run (fix_parser re_search) fs =
    match re_search fix_pattern false content with
    | Some (first, last) =>
        let new_content :=
          (Py.slice_to content (Z.of_nat first) ++ new_function)
          ++ Py.slice_from content (Z.of_nat last) in
        (Returned tt,
         World (<[Reports_js := new_content]> fs)
           [Printed (FoundFunctionAt (Z.of_nat first) (Z.of_nat last));
            Printed (OldFunctionLength
              (len (Py.slice content (Z.of_nat first) (Z.of_nat last))));
            Printed (NewFunctionLength (len new_function));
            Wrote Reports_js new_content; Printed FunctionReplaced])
    | None =>
        (Returned tt,
         World fs
           [Printed FunctionNotFoundBang; Printed SearchingSimpler;
            Printed (if re_search simple_pattern false content is Some _
                     then DeclarationFound else DeclarationNotFound)])
    end.
Proof.
  intros H1 H2. unfold fix_parser. run_script. rewrite H1. simpl. rewrite H2. simpl.
  destruct (re_search fix_pattern false content) as [[first last]|];
    [done |].
  by destruct (re_search simple_pattern false content).
Qed.

Lemma fix_parser_missing fs :
  fs !! Reports_js = None ∨ fs !! fix_parser_txt = None →
  ∃ e, run (fix_parser re_search) fs = (Raised e, World fs []).
Proof.
  intros H. unfold fix_parser. run_script.
  destruct (fs !! Reports_js) as [content|] eqn:E1; [| eauto].
  destruct H as [|H]; [done |]. simpl. rewrite H. eauto.
Qed.

Lemma check_parser_run fs :
  ∃ o t, run (check_parser re_search) fs = (o, World fs t)
         ∧ Forall (λ e, is_write e = false) t.
Proof.
  unfold check_parser. run_script.
  destruct (fs !! Reports_js) as [content|]; [| eauto].
  destruct (re_search check_pattern true content) as [[first last]|];
    do 2 eexists; (split; [reflexivity |]); repeat constructor.
Qed.
End run_facts.

Section find_answers.
Implicit Types sub s : doc.

(** Whatever [start] is, an answer other than [-1] is the offset of an
    occurrence. *)
Lemma find_occurs sub s st :
  Py.find s sub st ≠ -1 →
  ∃ i, Py.find s sub st = Z.of_nat i ∧ occurs_at sub s i.
Proof.
  unfold Py.find.
  set (st' := if st <? 0 then Z.max 0 (st + len s) else st).
  assert (0 ≤ st') as Hst by (subst st'; destruct (Z.ltb_spec st 0); lia).
  destruct (Z.ltb_spec (len s - st') (len sub)) as [|Hfit]; [done |].
  destruct (Py.first_occurrence sub (drop (Z.to_nat st') s)) as [k|] eqn:E;
    [intros _ | done].
  apply first_occurrence_Some in E as [Ho _].
  apply occurs_at_drop_shift in Ho; [| unfold len in *; lia].
  exists (Z.to_nat st' + k)%nat. split; [lia | done].
Qed.

Lemma find_absent_anywhere sub s st :
  absent_from sub s 0 → Py.find s sub st = -1.
Proof.
  intros Habs. destruct (decide (Py.find s sub st = -1)) as [|Hne]; [done |].
  apply find_occurs in Hne as (i & _ & Ho).
  exfalso. apply (Habs i); [lia | done].
Qed.

Lemma first_at_find sub s i :
  first_at sub s i ↔ Py.find s sub 0 = Z.of_nat i.
Proof.
  change 0 with (Z.of_nat 0). rewrite find_first_from by lia.
  unfold first_at, first_from. split.
  - intros [Ho Hmin]. split; [done |]. split; [lia |]. eauto.
  - intros (Ho & _ & Hmin). split; [done |]. intros j Hj.
    apply Hmin; [lia | done].
Qed.
End find_answers.

(** * Properties of the scripts *)

(** ** Insertion before an anchor ([add_pawnsposes_ai.py]) *)

(** C1, as stated, fails: [str.replace] rewrites every occurrence of the
    marker, so a document that holds the marker twice gets the new code
    twice, not only before the first occurrence; this for any new code. *)
Lemma insert_before_second_occurrence :
  let content := str "A;" ++ export_marker ++ str "B;" ++ export_marker in
  let fs : gmap string doc := {[ Reports_js := content ]} in
  first_at export_marker content 2
  ∧ files_after (add_pawnsposes_ai (str "X")) fs !! Reports_js =
      Some (str "A;" ++ (str "X" ++ [LF]) ++ export_marker
            ++ str "B;" ++ (str "X" ++ [LF]) ++ export_marker)
  ∧ files_after (add_pawnsposes_ai (str "X")) fs !! Reports_js ≠
      Some (take 2 content ++ (str "X" ++ [LF]) ++ drop 2 content)
  ∧ ∀ new_code,
      files_after (add_pawnsposes_ai new_code) fs !! Reports_js ≠
        Some (take 2 content ++ (new_code ++ [LF]) ++ drop 2 content).
Proof.
  intros content fs. split; [| split; [| split]].
  - apply first_occurrence_Some. by vm_compute.
  - by vm_compute.
  - by vm_compute.
  - intros new_code.
    assert (files_after (add_pawnsposes_ai new_code) fs !! Reports_js =
              Some (Py.replace content export_marker
                      (new_code ++ [LF] ++ export_marker))) as ->.
    { unfold files_after, add_pawnsposes_ai.
      rewrite (insert_before_run new_code _ _ fs content) by by vm_compute.
      replace (Py.contains export_marker content) with true by by vm_compute.
      apply lookup_insert_eq. }
    intros Heq. apply (inj Some) in Heq.
    rewrite replace_unfold in Heq by done.
    replace (Py.first_occurrence export_marker content) with (Some 2%nat)
      in Heq by by vm_compute.
    rewrite replace_unfold in Heq by done.
    replace (Py.first_occurrence export_marker
               (drop (2 + length export_marker) content))
      with (Some 2%nat) in Heq by by vm_compute.
    apply (f_equal length) in Heq.
    rewrite !length_app, !length_take, !length_drop in Heq.
    simpl in Heq. lia.
Qed.

(** C1, amended: when the marker's first occurrence is at offset [i] and
    the marker does not occur again after that match (in particular when
    it occurs exactly once), the script writes
    [document[0:i] + inserted + document[i:]], where [inserted] is the new
    code and a line feed: nothing is inserted anywhere else, and the text
    from [i] on, the marker first, is kept as it was. *)
Theorem insert_before_single_occurrence
    (new_code marker : doc) (path : string) (fs : gmap string doc)
    (content : doc) (i : nat) :
  fs !! path = Some content →
  first_at marker content i →
  absent_from marker content (i + length marker) →
  let inserted := new_code ++ [LF] in
  let new_content := take i content ++ inserted ++ drop i content in
  run (insert_before new_code marker path) fs =
    (Returned tt,
     World (<[path := new_content]> fs)
       [Wrote path new_content; Printed AddedFunctions;
        Printed (AddedCharacters (len new_code))])
  ∧ Py.slice_to content (Z.of_nat i) = take i content
  ∧ Py.slice_from content (Z.of_nat i) = drop i content
  ∧ occurs_at marker new_content (i + length inserted).
Proof.
  intros Hfs Hfirst Habs inserted new_content.
  pose proof (occurs_at_bound _ _ _ (proj1 Hfirst)) as Hb.
  assert (drop i content = marker ++ drop (i + length marker) content) as Hd.
  { destruct Hfirst as [(pre & post & -> & <-) _].
    by rewrite <- drop_drop, !drop_app_length. }
  split; [| split; [| split]].
  - rewrite (insert_before_run _ _ _ _ _ Hfs).
    assert (Py.contains marker content = true) as ->.
    { apply contains_occurs. exists i. apply Hfirst. }
    simpl. rewrite (replace_single _ _ _ _ Hfirst Habs).
    subst new_content inserted. rewrite Hd.
    by rewrite <- !app_assoc.
  - apply slice_to_take. lia.
  - apply slice_from_drop. lia.
  - subst new_content. rewrite Hd.
    exists (take i content ++ inserted), (drop (i + length marker) content).
    split; [by rewrite <- !app_assoc |].
    rewrite length_app, length_take. lia.
Qed.

Lemma insert_before_single_occurrence_witness :
  let content := str "alpha" ++ [LF] ++ export_marker ++ [LF] in
  let fs : gmap string doc := {[ Reports_js := content ]} in
  first_at export_marker content 6
  ∧ absent_from export_marker content (6 + length export_marker)
  ∧ files_after (add_pawnsposes_ai (str "const y = 1;")) fs !! Reports_js =
      Some (str "alpha" ++ [LF] ++ str "const y = 1;" ++ [LF]
            ++ export_marker ++ [LF]).
Proof.
  intros content fs.
  assert (first_at export_marker content 6) as H1
    by (apply first_occurrence_Some; by vm_compute).
  assert (absent_from export_marker content (6 + length export_marker)) as H2
    by (apply find_absent; by vm_compute).
  split; [done |]. split; [done |].
  destruct (insert_before_single_occurrence (str "const y = 1;")
              export_marker Reports_js fs content 6) as [Hrun _];
    [by vm_compute | done | done |].
  unfold files_after, add_pawnsposes_ai. rewrite Hrun. by vm_compute.
Defined.

(** ** Replacement between two markers ([update_training_section.py]) *)

Section bracket.
Variables sm em tail : doc.
Variables path payload : string.
Variable fs : gmap string doc.
Variables content replacement : doc.
Hypothesis Hcontent : fs !! path = Some content.
Hypothesis Hpayload : fs !! payload = Some replacement.

(** The write branch, by occurrences: the start marker first
    occurs at [s], and [e] is the first occurrence of the end marker at
    or after [s]. *)
Lemma replace_between_found (s e : nat) :
  first_at sm content s →
  first_from em content s e →
  let new_content :=
    take s content ++ (replacement ++ tail)
    ++ drop (e + length em) content in
  Py.find content sm 0 = Z.of_nat s
  ∧ Py.find content em (Z.of_nat s) = Z.of_nat e
  ∧ run (replace_between sm em tail path payload) fs =
      (Returned tt,
       World (<[path := new_content]> fs)
         [Wrote path new_content; Printed SectionUpdated;
          Printed (ReplacedCharacters (Z.of_nat e - Z.of_nat s))]).
Proof.
  intros Hs He new_content.
  pose proof (occurs_at_bound _ _ _ (proj1 Hs)) as Hbs.
  pose proof (occurs_at_bound _ _ _ (proj1 He)) as Hbe.
  assert (Py.find content sm 0 = Z.of_nat s) as Es by by apply first_at_find.
  assert (Py.find content em (Z.of_nat s) = Z.of_nat e) as Ee
    by (apply find_first_from; [lia | done]).
  split; [done |]. split; [done |].
  rewrite (replace_between_run _ _ _ _ _ _ _ _ Hcontent Hpayload).
  simpl. rewrite Es, Ee.
  rewrite !bool_decide_eq_true_2 by lia. simpl.
  replace (Z.of_nat e + len em) with (Z.of_nat (e + length em))
    by (unfold len; lia).
  rewrite slice_to_take, slice_from_drop by lia.
  subst new_content. by rewrite <- !app_assoc.
Qed.

(** The failure branch writes nothing. *)
Lemma replace_between_not_found :
  Py.find content sm 0 = -1
  ∨ Py.find content em (Py.find content sm 0) = -1 →
  ∃ t, run (replace_between sm em tail path payload) fs =
         (Returned tt, World fs (Printed SectionNotFound :: t))
       ∧ Forall (λ ev, is_write ev = false) t.
Proof.
  intros H.
  rewrite (replace_between_run _ _ _ _ _ _ _ _ Hcontent Hpayload). simpl.
  assert (bool_decide (Py.find content sm 0 ≠ -1)
          && bool_decide (Py.find content em (Py.find content sm 0) ≠ -1)
          = false) as ->.
  { apply andb_false_iff.
    destruct H as [H|H]; [left | right];
      apply bool_decide_eq_false_2; rewrite H; intros Hne; by apply Hne. }
  eexists. split; [reflexivity |].
  destruct (bool_decide _); repeat constructor.
Qed.
End bracket.

Lemma no_write_in_prints (t : list event) (p : string) (text : doc) :
  Forall (λ ev, is_write ev = false) t → Wrote p text ∉ t.
Proof.
  intros Hall Hin. rewrite Forall_forall in Hall.
  by specialize (Hall _ Hin).
Qed.

(** C2, as stated, fails: after the replacement text the script puts a
    literal of its own, 55 code points long, so what it writes is never
    [document[0:start_offset] + replacement + document[end_offset_plus_len:]];
    here on a small page, and then for every run that writes. *)
Lemma update_training_section_appends_literal :
  let content :=
    str "<main>" ++ start_marker ++ str "OLD" ++ end_marker ++ str "</main>" in
  let fs : gmap string doc :=
    {[ ReportDisplay_js := content;
       TRAINING_OPTIONS_UPDATE_txt := str "NEW" ]} in
  let start_offset := Py.find content start_marker 0 in
  let end_offset := Py.find content end_marker start_offset in
  let end_offset_plus_len := end_offset + len end_marker in
  start_offset = 6 ∧ end_offset = 93 ∧ end_offset_plus_len = 164
  ∧ files_after update_training_section fs !! ReportDisplay_js =
      Some (str "<main>" ++ str "NEW" ++ section_tail ++ str "</main>")
  ∧ Py.slice_to content start_offset ++ str "NEW"
      ++ Py.slice_from content end_offset_plus_len
      = str "<main>" ++ str "NEW" ++ str "</main>"
  ∧ files_after update_training_section fs !! ReportDisplay_js ≠
      Some (Py.slice_to content start_offset ++ str "NEW"
            ++ Py.slice_from content end_offset_plus_len)
  ∧ ∀ (fs' : gmap string doc) (content' replacement : doc) (s e : nat),
      fs' !! ReportDisplay_js = Some content' →
      fs' !! TRAINING_OPTIONS_UPDATE_txt = Some replacement →
      first_at start_marker content' s →
      first_from end_marker content' s e →
      files_after update_training_section fs' !! ReportDisplay_js ≠
        Some (Py.slice_to content' (Z.of_nat s) ++ replacement
              ++ Py.slice_from content' (Z.of_nat e + len end_marker)).
Proof.
  intros content fs start_offset end_offset end_offset_plus_len.
  repeat (split; [by vm_compute |]).
  intros fs' content' replacement s e Hc Hp Hs He.
  pose proof (occurs_at_bound _ _ _ (proj1 Hs)) as Hbs.
  pose proof (occurs_at_bound _ _ _ (proj1 He)) as Hbe.
  destruct (replace_between_found start_marker end_marker section_tail
              ReportDisplay_js TRAINING_OPTIONS_UPDATE_txt fs' content'
              replacement Hc Hp s e Hs He) as (_ & _ & Hrun).
  unfold files_after, update_training_section. rewrite Hrun.
  cbn [snd files]. rewrite lookup_insert_eq.
  intros Heq. apply (inj Some) in Heq.
  replace (Z.of_nat e + len end_marker)
    with (Z.of_nat (e + length end_marker)) in Heq by (unfold len; lia).
  rewrite slice_to_take, slice_from_drop in Heq by lia.
  apply (f_equal length) in Heq.
  rewrite !length_app in Heq.
  assert (length section_tail = 55%nat) as Htail by by vm_compute.
  lia.
Qed.

(** C2, amended: when the start marker occurs, first at [start_offset],
    and the end marker occurs at or after it, first at [end_offset],
    [update_training_section.py] writes
    [document[0:start_offset] + replacement + tail + document[end_offset_plus_len:]],
    where [tail] is the literal of 55 code points that the script appends
    after the replacement text: the span from the start of the start
    marker's match through the end of the end marker's match is dropped,
    and the replacement text followed by that literal stands in its
    place. *)
Theorem update_training_section_splices
    (fs : gmap string doc) (content replacement : doc) (s e : nat) :
  fs !! ReportDisplay_js = Some content →
  fs !! TRAINING_OPTIONS_UPDATE_txt = Some replacement →
  first_at start_marker content s →
  first_from end_marker content s e →
  let start_offset := Z.of_nat s in
  let end_offset_plus_len := Z.of_nat e + len end_marker in
  let tail :=
    [LF] ++ str "        </div>" ++ [LF; LF]
    ++ str "        {/* Back to Reports Button */}" in
  let new_content :=
    Py.slice_to content start_offset ++ replacement ++ tail
    ++ Py.slice_from content end_offset_plus_len in
  Py.find content start_marker 0 = start_offset
  ∧ Py.find content end_marker start_offset + len end_marker
      = end_offset_plus_len
  ∧ len tail = 55
  ∧ run update_training_section fs =
      (Returned tt,
       World (<[ReportDisplay_js := new_content]> fs)
         [Wrote ReportDisplay_js new_content; Printed SectionUpdated;
          Printed (ReplacedCharacters (Z.of_nat e - start_offset))]).
Proof.
  intros Hc Hp Hs He start_offset end_offset_plus_len tail new_content.
  pose proof (occurs_at_bound _ _ _ (proj1 Hs)) as Hbs.
  pose proof (occurs_at_bound _ _ _ (proj1 He)) as Hbe.
  destruct (replace_between_found start_marker end_marker section_tail
              ReportDisplay_js TRAINING_OPTIONS_UPDATE_txt fs content
              replacement Hc Hp s e Hs He) as (Es & Ee & Hrun).
  split; [done |]. split; [subst start_offset; by rewrite Ee |].
  split; [by vm_compute |].
  unfold update_training_section. rewrite Hrun.
  subst new_content start_offset end_offset_plus_len.
  replace (Z.of_nat e + len end_marker)
    with (Z.of_nat (e + length end_marker)) by (unfold len; lia).
  rewrite slice_to_take, slice_from_drop by lia.
  change tail with section_tail. by rewrite <- !app_assoc.
Qed.

Lemma update_training_section_splices_witness :
  let content :=
    str "<main>" ++ start_marker ++ str "OLD" ++ end_marker ++ str "</main>" in
  let fs : gmap string doc :=
    {[ ReportDisplay_js := content;
       TRAINING_OPTIONS_UPDATE_txt := str "NEW" ]} in
  first_at start_marker content 6
  ∧ first_from end_marker content 6 93
  ∧ files_after update_training_section fs !! ReportDisplay_js =
      Some (str "<main>" ++ str "NEW" ++ [LF] ++ str "        </div>"
            ++ [LF; LF] ++ str "        {/* Back to Reports Button */}"
            ++ str "</main>").
Proof.
  intros content fs.
  assert (first_at start_marker content 6) as H1
    by (apply first_occurrence_Some; by vm_compute).
  assert (first_from end_marker content 6 93) as H2
    by (apply find_first_from; vm_compute; first [reflexivity | lia]).
  split; [done |]. split; [done |].
  destruct (update_training_section_splices fs content (str "NEW") 6 93)
    as (_ & _ & _ & Hrun); [by vm_compute | by vm_compute | done | done |].
  unfold files_after. rewrite Hrun. by vm_compute.
Defined.

(** C3, as stated, fails: with [R] the payload, the written document is 55
    code points longer than
    [len(D) - (end_offset_plus_len - start_offset) + len(R)], by the
    literal the script appends; here on a small page, and then for every
    run that writes. *)
Lemma update_training_section_length_exceeds :
  let content :=
    str "<main>" ++ start_marker ++ str "OLD" ++ end_marker ++ str "</main>" in
  let fs : gmap string doc :=
    {[ ReportDisplay_js := content;
       TRAINING_OPTIONS_UPDATE_txt := str "NEW" ]} in
  let written := str "<main>" ++ str "NEW" ++ section_tail ++ str "</main>" in
  Py.find content start_marker 0 = 6
  ∧ Py.find content end_marker 6 + len end_marker = 164
  ∧ len content = 171 ∧ len (str "NEW") = 3
  ∧ files_after update_training_section fs !! ReportDisplay_js = Some written
  ∧ len written = 71
  ∧ len written ≠ len content - (164 - 6) + len (str "NEW")
  ∧ ∀ (fs' : gmap string doc) (content' replacement new_content : doc)
      (s e : nat),
      fs' !! ReportDisplay_js = Some content' →
      fs' !! TRAINING_OPTIONS_UPDATE_txt = Some replacement →
      first_at start_marker content' s →
      first_from end_marker content' s e →
      files_after update_training_section fs' !! ReportDisplay_js
        = Some new_content →
      len new_content ≠
        len content' - (Z.of_nat e + len end_marker - Z.of_nat s)
        + len replacement.
Proof.
  intros content fs written.
  repeat (split; [by vm_compute |]).
  intros fs' content' replacement new_content s e Hc Hp Hs He Hout.
  pose proof (occurs_at_bound _ _ _ (proj1 Hs)) as Hbs.
  pose proof (occurs_at_bound _ _ _ (proj1 He)) as Hbe.
  destruct (replace_between_found start_marker end_marker section_tail
              ReportDisplay_js TRAINING_OPTIONS_UPDATE_txt fs' content'
              replacement Hc Hp s e Hs He) as (_ & _ & Hrun).
  unfold files_after, update_training_section in Hout. rewrite Hrun in Hout.
  cbn [snd files] in Hout. rewrite lookup_insert_eq in Hout.
  apply (inj Some) in Hout. subst new_content.
  assert (length section_tail = 55%nat) as Htail by by vm_compute.
  unfold len. rewrite !length_app, length_take, length_drop. lia.
Qed.

(** C3, amended: in the same situation the document
    [update_training_section.py] writes has length
    [len(D) - (end_offset_plus_len - start_offset) + len(R) + 55], where
    [R] is the payload and 55 the length of the literal the script appends
    after it. *)
Theorem update_training_section_length
    (fs : gmap string doc) (content replacement : doc) (s e : nat) :
  fs !! ReportDisplay_js = Some content →
  fs !! TRAINING_OPTIONS_UPDATE_txt = Some replacement →
  first_at start_marker content s →
  first_from end_marker content s e →
  let start_offset := Z.of_nat s in
  let end_offset_plus_len := Z.of_nat e + len end_marker in
  ∃ new_content,
    files_after update_training_section fs !! ReportDisplay_js
      = Some new_content
    ∧ Py.find content start_marker 0 = start_offset
    ∧ Py.find content end_marker start_offset + len end_marker
        = end_offset_plus_len
    ∧ len new_content =
        len content - (end_offset_plus_len - start_offset)
        + len replacement + 55.
Proof.
  intros Hc Hp Hs He start_offset end_offset_plus_len.
  pose proof (occurs_at_bound _ _ _ (proj1 Hs)) as Hbs.
  pose proof (occurs_at_bound _ _ _ (proj1 He)) as Hbe.
  destruct (replace_between_found start_marker end_marker section_tail
              ReportDisplay_js TRAINING_OPTIONS_UPDATE_txt fs content
              replacement Hc Hp s e Hs He) as (Es & Ee & Hrun).
  eexists. split; [| split; [done | split]].
  - unfold files_after, update_training_section. rewrite Hrun.
    cbn [snd files]. apply lookup_insert_eq.
  - subst start_offset. by rewrite Ee.
  - assert (length section_tail = 55%nat) as Htail by by vm_compute.
    subst start_offset end_offset_plus_len. unfold len.
    rewrite !length_app, length_take, length_drop. lia.
Qed.

Lemma update_training_section_length_witness :
  let content :=
    str "<main>" ++ start_marker ++ str "OLD" ++ end_marker ++ str "</main>" in
  let fs : gmap string doc :=
    {[ ReportDisplay_js := content;
       TRAINING_OPTIONS_UPDATE_txt := str "NEW" ]} in
  first_at start_marker content 6
  ∧ first_from end_marker content 6 93
  ∧ ∃ new_content,
      files_after update_training_section fs !! ReportDisplay_js
        = Some new_content
      ∧ len new_content = 171 - (164 - 6) + 3 + 55.
Proof.
  intros content fs.
  assert (first_at start_marker content 6) as H1
    by (apply first_occurrence_Some; by vm_compute).
  assert (first_from end_marker content 6 93) as H2
    by (apply find_first_from; vm_compute; first [reflexivity | lia]).
  split; [done |]. split; [done |].
  destruct (update_training_section_length fs content (str "NEW") 6 93)
    as (new_content & Hout & _ & _ & Hlen);
    [by vm_compute | by vm_compute | done | done |].
  exists new_content. split; [done |]. rewrite Hlen. by vm_compute.
Defined.

(** A search that starts at [s] answers as one that starts at [s + n] when
    nothing to find begins in between. *)
Lemma find_skips_clear_span (sub content : doc) (s n : nat) :
  (s + n ≤ length content)%nat →
  (∀ j, (s ≤ j < s + n)%nat → ¬ occurs_at sub content j) →
  Py.find content sub (Z.of_nat s) = Py.find content sub (Z.of_nat (s + n)).
Proof.
  intros Hb Hclear.
  destruct (decide (Py.find content sub (Z.of_nat s) = -1)) as [Hno|Hyes].
  - rewrite Hno. symmetry. apply find_absent.
    apply find_absent in Hno. intros j Hj. apply Hno. lia.
  - apply find_occurs in Hyes as (e & He & _). rewrite He. symmetry.
    apply find_first_from in He as (Hoe & Hse & Hmin); [| lia].
    apply find_first_from; [lia |]. split; [done |]. split.
    + destruct (decide (s + n ≤ e)%nat) as [|Hlt]; [done |].
      exfalso. apply (Hclear e); [lia | done].
    + intros j Hj. apply Hmin. lia.
Qed.

(** The literals of the script: an end marker cannot begin inside a match
    of the start marker, so a search from the start of that match and one
    from its end give the same answer. *)
Lemma clash_app a b post post' :
  a ++ post = b ++ post' → clash a b = true.
Proof.
  revert b. induction a as [|x a IH]; intros b H.
  - done.
  - destruct b as [|y b]; [done |].
    simpl in H. injection H as -> H. apply IH in H.
    unfold clash in *. simpl. by rewrite N.eqb_refl.
Qed.

Lemma markers_apart_sound sm em content s j :
  markers_apart sm em = true →
  occurs_at sm content s →
  (s ≤ j < s + length sm)%nat →
  ¬ occurs_at em content j.
Proof.
  intros Hap Hs Hj Hem. unfold markers_apart in Hap.
  rewrite forallb_forall in Hap.
  specialize (Hap (j - s)%nat). rewrite in_seq in Hap.
  rewrite negb_true_iff in Hap.
  assert (clash (drop (j - s) sm) em = true) as Hc; [| rewrite Hap in Hc; [done | lia]].
  destruct Hs as (pre & post0 & -> & <-).
  apply occurs_at_drop in Hem as [_ Hem].
  apply starts_with_prefix in Hem as [post Hem].
  apply (clash_app _ _ post0 post). rewrite <- Hem.
  replace j with (length pre + (j - length pre))%nat at 2 by lia.
  rewrite <- drop_drop, drop_app_length.
  by rewrite drop_app_le by lia.
Qed.

Lemma script_markers_apart : markers_apart start_marker end_marker = true.
Proof. by vm_compute. Qed.

(** For the literals of [update_training_section.py] the end marker found
    always begins after the whole match of the start marker. *)
Lemma update_training_section_end_after_start (content : doc) (s : nat) :
  first_at start_marker content s →
  Py.find content end_marker (Z.of_nat s) =
    Py.find content end_marker (Z.of_nat s + len start_marker).
Proof.
  intros [Ho _].
  replace (Z.of_nat s + len start_marker)
    with (Z.of_nat (s + length start_marker)) by (unfold len; lia).
  apply find_skips_clear_span; [by apply occurs_at_bound |].
  intros j Hj. by apply (markers_apart_sound start_marker end_marker _ s).
Qed.

(** C4: in [update_training_section.py], when the start marker is found,
    the end marker used is its first occurrence that begins at or after
    the offset right after the whole match of the start marker; no
    occurrence that begins before that offset is ever selected, and the
    script gives up exactly when there is none from that offset on.  The
    call searches from [start_idx], but the script's end marker cannot
    begin inside a match of its start marker. *)
Theorem update_training_section_end_marker_after_start
    (fs : gmap string doc) (content replacement : doc) (s : nat) :
  fs !! ReportDisplay_js = Some content →
  fs !! TRAINING_OPTIONS_UPDATE_txt = Some replacement →
  first_at start_marker content s →
  let start_idx := Py.find content start_marker 0 in
  let end_idx := Py.find content end_marker start_idx in
  let after := (s + length start_marker)%nat in
  start_idx = Z.of_nat s
  ∧ Z.of_nat after = start_idx + len start_marker
  ∧ (∀ e : nat, end_idx = Z.of_nat e ↔ first_from end_marker content after e)
  ∧ (end_idx = -1 ↔ absent_from end_marker content after)
  ∧ (∀ j : nat, (j < after)%nat → end_idx ≠ Z.of_nat j)
  ∧ (∀ e : nat,
       first_from end_marker content after e →
       let new_content :=
         take s content ++ (replacement ++ section_tail)
         ++ drop (e + length end_marker) content in
       run update_training_section fs =
         (Returned tt,
          World (<[ReportDisplay_js := new_content]> fs)
            [Wrote ReportDisplay_js new_content; Printed SectionUpdated;
             Printed (ReplacedCharacters (Z.of_nat e - Z.of_nat s))]))
  ∧ (absent_from end_marker content after →
       files_after update_training_section fs = fs
       ∧ writes update_training_section fs = []).
Proof.
  intros Hc Hp Hs start_idx end_idx after.
  pose proof (occurs_at_bound _ _ _ (proj1 Hs)) as Hbs.
  assert (start_idx = Z.of_nat s) as Es by by apply first_at_find.
  assert (end_idx = Py.find content end_marker (Z.of_nat after)) as Ee.
  { subst end_idx. rewrite Es.
    rewrite (update_training_section_end_after_start content s Hs).
    f_equal. subst after. unfold len. lia. }
  clearbody start_idx end_idx. subst start_idx end_idx.
  assert (∀ e : nat, Py.find content end_marker (Z.of_nat after) = Z.of_nat e
                     ↔ first_from end_marker content after e) as Hfound
    by (intros e; apply find_first_from; subst after; lia).
  split; [done |]. split; [subst after; unfold len; lia |].
  split; [done |]. split; [apply find_absent |]. split; [| split].
  - intros j Hj Heq. apply Hfound in Heq as (_ & Hle & _). lia.
  - intros e He new_content.
    assert (first_from end_marker content s e) as He'.
    { apply find_first_from; [lia |].
      rewrite (update_training_section_end_after_start content s Hs).
      replace (Z.of_nat s + len start_marker) with (Z.of_nat after)
        by (subst after; unfold len; lia).
      by apply Hfound. }
    by destruct (replace_between_found start_marker end_marker section_tail
                   ReportDisplay_js TRAINING_OPTIONS_UPDATE_txt fs content
                   replacement Hc Hp s e Hs He') as (_ & _ & Hrun).
  - intros Habs.
    destruct (replace_between_not_found start_marker end_marker section_tail
                ReportDisplay_js TRAINING_OPTIONS_UPDATE_txt fs content
                replacement Hc Hp) as (t & Hrun & Hall).
    { right. rewrite (proj1 (first_at_find _ _ _) Hs).
      rewrite (update_training_section_end_after_start content s Hs).
      replace (Z.of_nat s + len start_marker) with (Z.of_nat after)
        by (subst after; unfold len; lia).
      by apply find_absent. }
    unfold files_after, writes, trace_of, update_training_section.
    rewrite Hrun. split; [done |]. cbn [snd trace].
    assert (Forall (λ ev, is_write ev = false) (Printed SectionNotFound :: t))
      as Hall' by by constructor.
    clear Hrun Hall. induction Hall' as [|ev t' Hev _ IH]; [done |].
    rewrite filter_cons_False; [apply IH | congruence].
Qed.

Lemma update_training_section_end_marker_after_start_witness :
  let content :=
    str "<main>" ++ start_marker ++ str "OLD" ++ end_marker ++ str "</main>" in
  let fs : gmap string doc :=
    {[ ReportDisplay_js := content;
       TRAINING_OPTIONS_UPDATE_txt := str "NEW" ]} in
  first_at start_marker content 6
  ∧ Py.find content end_marker (Py.find content start_marker 0) = 93
  ∧ first_from end_marker content (6 + length start_marker) 93.
Proof.
  intros content fs.
  assert (first_at start_marker content 6) as H1
    by (apply first_occurrence_Some; by vm_compute).
  split; [done |]. split; [by vm_compute |].
  destruct (update_training_section_end_marker_after_start fs content
              (str "NEW") 6) as (_ & _ & Hfound & _);
    [by vm_compute | by vm_compute | done |].
  apply (Hfound 93%nat). by vm_compute.
Defined.

(** C8, as stated, fails: the literal the script appends after the
    replacement is not the end marker but the end marker without its first
    line, so the first 16 code points of the end marker are consumed
    too and the output is not
    [document[0:start_idx] + replacement + document[end_idx:]]. *)
Lemma update_training_section_consumes_marker_head :
  let content :=
    str "<main>" ++ start_marker ++ str "OLD" ++ end_marker ++ str "</main>" in
  let fs : gmap string doc :=
    {[ ReportDisplay_js := content;
       TRAINING_OPTIONS_UPDATE_txt := str "NEW" ]} in
  let start_idx := Py.find content start_marker 0 in
  let end_idx := Py.find content end_marker start_idx in
  start_idx = 6 ∧ end_idx = 93
  ∧ section_tail ≠ end_marker
  ∧ files_after update_training_section fs !! ReportDisplay_js =
      Some (str "<main>" ++ str "NEW" ++ section_tail ++ str "</main>")
  ∧ files_after update_training_section fs !! ReportDisplay_js ≠
      Some (Py.slice_to content start_idx ++ str "NEW"
            ++ Py.slice_from content end_idx).
Proof. intros content fs start_idx end_idx. repeat split; by vm_compute. Qed.

(** C8, amended: on success [update_training_section.py] writes exactly
    [document[0:start_idx] + replacement + document[end_idx + 16:]]: the
    literal appended after the replacement is the end marker without its
    first 16 code points (its first line, ten spaces and [</div>]), so
    only that remainder of the end marker is kept, right after the
    replacement; everything from the first code point of the start marker
    through the first line of the end marker is consumed, and the start
    marker survives only if the replacement supplies it again. *)
Theorem update_training_section_output
    (fs : gmap string doc) (content replacement : doc) (s e : nat) :
  fs !! ReportDisplay_js = Some content →
  fs !! TRAINING_OPTIONS_UPDATE_txt = Some replacement →
  first_at start_marker content s →
  first_from end_marker content s e →
  let start_idx := Z.of_nat s in
  let end_idx := Z.of_nat e in
  end_marker = str "          </div>" ++ section_tail
  ∧ len (str "          </div>") = 16
  ∧ Py.find content start_marker 0 = start_idx
  ∧ Py.find content end_marker start_idx = end_idx
  ∧ files_after update_training_section fs =
      <[ReportDisplay_js :=
          Py.slice_to content start_idx ++ replacement
          ++ Py.slice_from content (end_idx + 16)]> fs.
Proof.
  intros Hc Hp Hs He start_idx end_idx.
  pose proof (occurs_at_bound _ _ _ (proj1 Hs)) as Hbs.
  pose proof (occurs_at_bound _ _ _ (proj1 He)) as Hbe.
  assert (end_marker = str "          </div>" ++ section_tail) as Hem
    by by vm_compute.
  assert (length end_marker = (16 + length section_tail)%nat) as Hlen
    by by vm_compute.
  destruct (replace_between_found start_marker end_marker section_tail
              ReportDisplay_js TRAINING_OPTIONS_UPDATE_txt fs content
              replacement Hc Hp s e Hs He) as (Es & Ee & Hrun).
  split; [done |]. split; [done |]. split; [done |]. split; [done |].
  unfold files_after, update_training_section. rewrite Hrun. simpl.
  f_equal. subst start_idx end_idx.
  replace (Z.of_nat e + 16) with (Z.of_nat (e + 16)) by lia.
  rewrite slice_to_take, slice_from_drop by lia.
  rewrite <- app_assoc. do 2 f_equal.
  destruct He as ((pre & post & -> & <-) & _).
  rewrite <- !drop_drop, !drop_app_length.
  rewrite Hem at 2. rewrite <- app_assoc.
  by rewrite (drop_app_length' (str "          </div>")) by done.
Qed.

Lemma update_training_section_output_witness :
  let content :=
    str "<main>" ++ start_marker ++ str "OLD" ++ end_marker ++ str "</main>" in
  let fs : gmap string doc :=
    {[ ReportDisplay_js := content;
       TRAINING_OPTIONS_UPDATE_txt := str "NEW" ]} in
  first_at start_marker content 6
  ∧ first_from end_marker content 6 93
  ∧ files_after update_training_section fs =
      <[ReportDisplay_js :=
          str "<main>" ++ str "NEW" ++ section_tail ++ str "</main>"]> fs.
Proof.
  intros content fs.
  assert (first_at start_marker content 6) as H1
    by (apply first_occurrence_Some; by vm_compute).
  assert (first_from end_marker content 6 93) as H2
    by (apply find_first_from; vm_compute; first [reflexivity | lia]).
  split; [done |]. split; [done |].
  destruct (update_training_section_output fs content (str "NEW") 6 93)
    as (_ & _ & _ & _ & ->); [by vm_compute | by vm_compute | done | done |].
  f_equal.
Defined.

(** C10: whenever [update_training_section.py] writes,
    [0 <= start_idx <= end_idx] and [end_idx + len(end_marker)] is within
    the document: the two slices are plain prefix and suffix, and with the
    replaced span between them, of length
    [end_idx + len(end_marker) - start_idx >= 0], they make up the
    document. *)
Theorem write_branch_indices_ordered
    (sm em tail : doc) (path payload : string) (fs : gmap string doc)
    (p : string) (text : doc) :
  Wrote p text ∈ trace_of (replace_between sm em tail path payload) fs →
  ∃ content,
    fs !! path = Some content
    ∧ let start_idx := Py.find content sm 0 in
      let end_idx := Py.find content em start_idx in
      let span := Py.slice content start_idx (end_idx + len em) in
      0 ≤ start_idx ∧ start_idx ≤ end_idx
      ∧ end_idx + len em ≤ len content
      ∧ Py.slice_to content start_idx = take (Z.to_nat start_idx) content
      ∧ Py.slice_from content (end_idx + len em) =
          drop (Z.to_nat (end_idx + len em)) content
      ∧ content =
          Py.slice_to content start_idx ++ span
          ++ Py.slice_from content (end_idx + len em)
      ∧ len span = end_idx + len em - start_idx
      ∧ 0 ≤ len span.
Proof.
  intros Hin. unfold trace_of in Hin.
  destruct (fs !! path) as [content|] eqn:Hc; cycle 1.
  { destruct (replace_between_missing sm em tail path payload fs
                (or_introl Hc)) as [ex Hrun].
    rewrite Hrun in Hin. simpl in Hin. by apply elem_of_nil in Hin. }
  destruct (fs !! payload) as [replacement|] eqn:Hp; cycle 1.
  { destruct (replace_between_missing sm em tail path payload fs
                (or_intror Hp)) as [ex Hrun].
    rewrite Hrun in Hin. simpl in Hin. by apply elem_of_nil in Hin. }
  exists content. split; [done |]. intros start_idx end_idx span.
  destruct (decide (start_idx = -1 ∨ end_idx = -1)) as [Hfail|Hok].
  { destruct (replace_between_not_found sm em tail path payload fs content
                replacement Hc Hp Hfail) as (t & Hrun & Hall).
    rewrite Hrun in Hin. simpl in Hin.
    apply elem_of_cons in Hin as [|Hin]; [done |].
    by apply no_write_in_prints in Hin. }
  assert (start_idx ≠ -1 ∧ end_idx ≠ -1) as [Hs He] by tauto.
  destruct (find_range sm content 0) as [|(Hs0 & Hsb & _)]; [done |].
  destruct (find_range em content start_idx) as [|(He0 & Heb & Hle)];
    [done |].
  fold start_idx in Hs0, Hsb. fold end_idx in He0, Heb, Hle.
  specialize (Hle Hs0). clearbody start_idx end_idx.
  assert (0 ≤ len em) as Hem by (unfold len; lia).
  unfold len in *.
  assert (∃ a : nat, start_idx = Z.of_nat a) as [a ->]
    by (exists (Z.to_nat start_idx); lia).
  assert (∃ b : nat, end_idx + Z.of_nat (length em) = Z.of_nat b) as [b Hb]
    by (exists (Z.to_nat (end_idx + Z.of_nat (length em))); lia).
  subst span. rewrite Hb.
  rewrite slice_to_take, slice_from_drop, slice_take_drop by lia.
  rewrite !Nat2Z.id.
  split; [lia |]. split; [lia |]. split; [lia |].
  split; [done |]. split; [done |]. split; [| split].
  - rewrite <- (take_drop a content) at 1. f_equal.
    rewrite <- (take_drop (b - a) (drop a content)) at 1. f_equal.
    rewrite drop_drop. f_equal. lia.
  - rewrite length_take, length_drop. lia.
  - lia.
Qed.

Lemma write_branch_indices_ordered_witness :
  let content := str "ab<<cdef>>gh" in
  let fs : gmap string doc :=
    {[ "page.js" := content; "payload.txt" := str "XYZ" ]} in
  Wrote "page.js" (str "abXYZgh")
    ∈ trace_of (replace_between (str "<<") (str ">>") [] "page.js"
                  "payload.txt") fs
  ∧ ∃ c, fs !! "page.js" = Some c
         ∧ 0 ≤ Py.find c (str "<<") 0
         ∧ Py.find c (str "<<") 0
             ≤ Py.find c (str ">>") (Py.find c (str "<<") 0).
Proof.
  intros content fs.
  assert (Wrote "page.js" (str "abXYZgh")
            ∈ trace_of (replace_between (str "<<") (str ">>") [] "page.js"
                          "payload.txt") fs) as Hin
    by (vm_compute; apply list_elem_of_here).
  split; [done |].
  destruct (write_branch_indices_ordered _ _ _ _ _ _ _ _ Hin)
    as (c & Hc & H0 & Hle & _).
  exists c. done.
Defined.

(** ** Failure branches and the read-only script *)

Lemma writes_nil (p : script unit) (fs : gmap string doc) :
  Forall (λ ev, is_write ev = false) (trace_of p fs) → writes p fs = [].
Proof.
  unfold writes. induction 1 as [|ev t Hev _ IH]; [done |].
  rewrite filter_cons_False; [done | congruence].
Qed.

(** C5: when the anchor, the start marker, the end marker or the pattern
    has no occurrence in the document, each of the three modifying scripts
    returns after a not-found report, and the file system after the run is
    the one before it: the failure branches write nothing. *)
Theorem not_found_leaves_files_unchanged
    (new_code : doc) (re_search : doc → bool → doc → option (nat * nat))
    (fs : gmap string doc) :
  (∀ marker path content,
     fs !! path = Some content →
     absent_from marker content 0 →
     run (insert_before new_code marker path) fs =
       (Returned tt, World fs [Printed ExportNotFound]))
  ∧ (∀ sm em tail path payload content replacement,
       fs !! path = Some content →
       fs !! payload = Some replacement →
       absent_from sm content 0 ∨ absent_from em content 0 →
       ∃ t, run (replace_between sm em tail path payload) fs =
              (Returned tt, World fs (Printed SectionNotFound :: t))
            ∧ Forall (λ ev, is_write ev = false) t)
  ∧ (∀ content new_function,
       fs !! Reports_js = Some content →
       fs !! fix_parser_txt = Some new_function →
       re_search fix_pattern false content = None →
       ∃ m, run (fix_parser re_search) fs =
              (Returned tt,
               World fs [Printed FunctionNotFoundBang;
                         Printed SearchingSimpler; Printed m])).
Proof.
  split; [| split].
  - intros marker path content Hc Habs.
    rewrite (insert_before_run _ _ _ _ _ Hc).
    assert (Py.contains marker content = false) as ->; [| done].
    apply not_true_is_false. rewrite contains_occurs.
    intros [j Hj]. apply (Habs j); [lia | done].
  - intros sm em tail path payload content replacement Hc Hp Habs.
    apply (replace_between_not_found _ _ _ _ _ _ _ _ Hc Hp).
    destruct Habs as [Habs|Habs]; [left | right];
      by apply find_absent_anywhere.
  - intros content new_function Hc Hn Hnone.
    rewrite (fix_parser_run _ _ _ _ Hc Hn), Hnone. eauto.
Qed.

Lemma not_found_leaves_files_unchanged_witness :
  let fs : gmap string doc :=
    {[ Reports_js := str "const Reports = () => null;";
       fix_parser_txt := str "const parseWeaknessesFromUnified = 1;";
       ReportDisplay_js := str "<div></div>";
       TRAINING_OPTIONS_UPDATE_txt := str "<p/>" ]} in
  files_after (add_pawnsposes_ai (str "// new code")) fs = fs
  ∧ files_after update_training_section fs = fs
  ∧ files_after (fix_parser Re.search) fs = fs.
Proof.
  intros fs.
  destruct (not_found_leaves_files_unchanged (str "// new code") Re.search fs)
    as (Hadd & Hupd & Hfix).
  split; [| split].
  - unfold files_after, add_pawnsposes_ai.
    rewrite (Hadd export_marker Reports_js
               (str "const Reports = () => null;")); [done | by vm_compute |].
    apply find_absent. by vm_compute.
  - unfold files_after, update_training_section.
    destruct (Hupd start_marker end_marker section_tail ReportDisplay_js
                TRAINING_OPTIONS_UPDATE_txt (str "<div></div>") (str "<p/>"))
      as (t & -> & _); [by vm_compute | by vm_compute | | done].
    left. apply find_absent. by vm_compute.
  - unfold files_after.
    destruct (Hfix (str "const Reports = () => null;")
                (str "const parseWeaknessesFromUnified = 1;"))
      as (m & ->); [by vm_compute | by vm_compute | by vm_compute | done].
Defined.

(** C6: [check_parser.py] only reads: whatever the file system holds and
    whether the pattern matches or not, the run leaves every file as it
    was, the searched document included, and writes nothing. *)
Theorem check_parser_read_only
    (re_search : doc → bool → doc → option (nat * nat))
    (fs : gmap string doc) :
  files_after (check_parser re_search) fs = fs
  ∧ files_after (check_parser re_search) fs !! Reports_js = fs !! Reports_js
  ∧ writes (check_parser re_search) fs = [].
Proof.
  destruct (check_parser_run re_search fs) as (o & t & Hrun & Hall).
  assert (files_after (check_parser re_search) fs = fs) as Hfs
    by (unfold files_after; by rewrite Hrun).
  split; [done |]. split; [by rewrite Hfs |].
  apply writes_nil. unfold trace_of. by rewrite Hrun.
Qed.

(** C9: when the primary pattern of [fix_parser.py] does not match, the
    search for the simpler pattern only chooses the last line printed; the
    file system is left as it was and nothing is written, also when the
    simpler pattern matches. *)
Theorem fix_parser_fallback_diagnostic_only
    (re_search : doc → bool → doc → option (nat * nat))
    (fs : gmap string doc) (content new_function : doc) :
  fs !! Reports_js = Some content →
  fs !! fix_parser_txt = Some new_function →
  re_search fix_pattern false content = None →
  run (fix_parser re_search) fs =
    (Returned tt,
     World fs
       [Printed FunctionNotFoundBang; Printed SearchingSimpler;
        Printed (if re_search simple_pattern false content is Some _
                 then DeclarationFound else DeclarationNotFound)])
  ∧ files_after (fix_parser re_search) fs = fs
  ∧ writes (fix_parser re_search) fs = [].
Proof.
  intros Hc Hn Hnone.
  assert (run (fix_parser re_search) fs =
    (Returned tt,
     World fs
       [Printed FunctionNotFoundBang; Printed SearchingSimpler;
        Printed (if re_search simple_pattern false content is Some _
                 then DeclarationFound else DeclarationNotFound)])) as Hrun
    by by rewrite (fix_parser_run _ _ _ _ Hc Hn), Hnone.
  split; [done |]. split.
  - unfold files_after. by rewrite Hrun.
  - apply writes_nil. unfold trace_of. rewrite Hrun. simpl.
    repeat constructor.
Qed.

Lemma fix_parser_fallback_diagnostic_only_witness :
  let content := str "const parseWeaknessesFromUnified = (t) => { };" in
  let fs : gmap string doc :=
    {[ Reports_js := content; fix_parser_txt := str "// new parser" ]} in
  Re.search fix_pattern false content = None
  ∧ is_Some (Re.search simple_pattern false content)
  ∧ run (fix_parser Re.search) fs =
      (Returned tt,
       World fs [Printed FunctionNotFoundBang; Printed SearchingSimpler;
                 Printed DeclarationFound]).
Proof.
  intros content fs.
  assert (Re.search fix_pattern false content = None) as H1 by by vm_compute.
  split; [done |]. split; [vm_compute; eauto |].
  destruct (fix_parser_fallback_diagnostic_only Re.search fs content
              (str "// new parser")) as (-> & _);
    [by vm_compute | by vm_compute | done |].
  by vm_compute.
Defined.

(** ** Running the insertion again *)

(** C7: the result of [add_pawnsposes_ai.py] depends on the document
    alone, so two runs on the same original document write the same text;
    and the script is not idempotent: its output still holds the marker,
    a run on that output takes the write branch again and writes a longer
    document.  When the marker occurred once and the inserted text makes
    no earlier occurrence, the second run puts a second copy of the
    inserted text before the marker. *)
Theorem insert_before_not_idempotent
    (new_code marker : doc) (path : string) (fs : gmap string doc)
    (content : doc) (j : nat) :
  fs !! path = Some content →
  occurs_at marker content j →
  let again := insert_before new_code marker path in
  let inserted := new_code ++ [LF] in
  ∃ out1 out2,
    files_after again fs = <[path := out1]> fs
    ∧ (∀ fs' : gmap string doc,
         fs' !! path = Some content →
         files_after again fs' = <[path := out1]> fs'
         ∧ trace_of again fs' = trace_of again fs)
    ∧ (∃ j', occurs_at marker out1 j')
    ∧ files_after again (files_after again fs) = <[path := out2]> fs
    ∧ (length out1 + length inserted ≤ length out2)%nat
    ∧ out2 ≠ out1
    ∧ (∀ i, first_at marker content i →
            absent_from marker content (i + length marker) →
            first_at marker out1 (i + length inserted) →
            out1 = take i content ++ inserted ++ drop i content
            ∧ out2 = take i content ++ inserted ++ inserted ++ drop i content).
Proof.
  intros Hc Ho again inserted.
  set (new := new_code ++ [LF] ++ marker).
  assert (new = inserted ++ marker) as Hnew
    by (subst new inserted; by rewrite <- app_assoc).
  set (out1 := Py.replace content marker new).
  set (out2 := Py.replace out1 marker new).
  assert (∃ j', occurs_at marker out1 j') as [j' Ho1]
    by (subst out1; rewrite Hnew; by eapply replace_keeps_marker).
  assert (∀ (fs' : gmap string doc) text,
            fs' !! path = Some text → (∃ k, occurs_at marker text k) →
            run again fs' =
              (Returned tt,
               World (<[path := Py.replace text marker new]> fs')
                 [Wrote path (Py.replace text marker new);
                  Printed AddedFunctions;
                  Printed (AddedCharacters (len new_code))])) as Hrun.
  { intros fs' text Ht Hk. subst again.
    rewrite (insert_before_run _ _ _ _ _ Ht).
    by rewrite (proj2 (contains_occurs _ _) Hk). }
  assert (files_after again fs = <[path := out1]> fs) as Hfs1
    by (unfold files_after; rewrite (Hrun fs content); eauto).
  assert (length out1 + length inserted ≤ length out2)%nat as Hlen
    by (subst out2; rewrite Hnew; by eapply replace_grows).
  exists out1, out2. split; [done |]. split.
  { intros fs' Hc'. unfold files_after, trace_of.
    rewrite (Hrun fs' content), (Hrun fs content); eauto. }
  split; [eauto |]. split.
  { rewrite Hfs1. unfold files_after.
    rewrite (Hrun (<[path := out1]> fs) out1);
      [| apply lookup_insert_eq | eauto].
    simpl. apply insert_insert_eq. }
  split; [done |]. split.
  { intros Heq. rewrite Heq in Hlen. subst inserted.
    rewrite length_app in Hlen. simpl in Hlen. lia. }
  intros i Hfirst Habs Hfirst1.
  pose proof (occurs_at_bound _ _ _ (proj1 Hfirst)) as Hb.
  assert (drop i content = marker ++ drop (i + length marker) content) as Hd.
  { destruct Hfirst as [(pre & post & -> & <-) _].
    by rewrite <- drop_drop, !drop_app_length. }
  assert (out1 = take i content ++ inserted ++ drop i content) as E1.
  { subst out1. rewrite (replace_single _ _ _ _ Hfirst Habs), Hnew, Hd.
    by rewrite <- !app_assoc. }
  split; [done |].
  assert (out1 = (take i content ++ inserted) ++ marker
                 ++ drop (i + length marker) content) as E1'
    by (rewrite E1, Hd; by rewrite <- !app_assoc).
  assert (length (take i content ++ inserted) = (i + length inserted)%nat)
    as Hpre by (rewrite length_app, length_take; lia).
  subst out2. rewrite (replace_single out1 marker new (i + length inserted)).
  - rewrite Hnew, Hd. rewrite E1' at 1 2. rewrite <- Hpre.
    rewrite take_app_length, <- drop_drop, !drop_app_length.
    by rewrite <- !app_assoc.
  - done.
  - intros k Hk Hok. rewrite E1' in Hok.
    replace k with (length (take i content ++ inserted)
                    + (length marker + (k - (i + length inserted)
                                        - length marker)))%nat in Hok by lia.
    rewrite <- occurs_at_drop_shift in Hok by (rewrite !length_app; lia).
    rewrite drop_app_length in Hok.
    rewrite <- occurs_at_drop_shift in Hok by (rewrite !length_app; lia).
    rewrite drop_app_length in Hok.
    apply occurs_at_drop_shift in Hok; [| lia].
    apply Habs in Hok; [done | lia].
Qed.

Lemma insert_before_not_idempotent_witness :
  let content := str "alpha" ++ [LF] ++ export_marker ++ [LF] in
  let fs : gmap string doc := {[ Reports_js := content ]} in
  let once := files_after (add_pawnsposes_ai (str "const y = 1;")) fs in
  let twice := files_after (add_pawnsposes_ai (str "const y = 1;")) once in
  occurs_at export_marker content 6
  ∧ once !! Reports_js =
      Some (str "alpha" ++ [LF] ++ str "const y = 1;" ++ [LF]
            ++ export_marker ++ [LF])
  ∧ twice !! Reports_js =
      Some (str "alpha" ++ [LF] ++ str "const y = 1;" ++ [LF]
            ++ str "const y = 1;" ++ [LF] ++ export_marker ++ [LF]).
Proof.
  intros content fs once twice.
  assert (first_at export_marker content 6) as H1
    by (apply first_occurrence_Some; by vm_compute).
  assert (absent_from export_marker content (6 + length export_marker)) as H2
    by (apply find_absent; by vm_compute).
  split; [apply H1 |].
  destruct (insert_before_not_idempotent (str "const y = 1;") export_marker
              Reports_js fs content 6)
    as (out1 & out2 & Hfs1 & _ & _ & Hfs2 & _ & _ & Hshape);
    [by vm_compute | apply H1 |].
  assert (out1 = str "alpha" ++ [LF] ++ str "const y = 1;" ++ [LF]
                 ++ export_marker ++ [LF]) as E1.
  { assert (once !! Reports_js = Some out1) as Hl
      by (subst once; unfold add_pawnsposes_ai; rewrite Hfs1;
          apply lookup_insert_eq).
    vm_compute in Hl. injection Hl as <-. by vm_compute. }
  destruct (Hshape 6%nat H1 H2) as [_ E2].
  { rewrite E1. apply first_occurrence_Some. by vm_compute. }
  subst once twice. unfold add_pawnsposes_ai. rewrite Hfs2, Hfs1.
  rewrite !lookup_insert_eq. split; f_equal; [done |].
  rewrite E2. by vm_compute.
Defined.

(** * Further properties of the scripts *)

(** ** What a run may touch *)

Lemma touches_only_frame (target : string) (p : script unit)
    (fs : gmap string doc) (q : string) :
  touches_only target p fs → q ≠ target → files_after p fs !! q = fs !! q.
Proof.
  intros [[_ ->]|(text & _ & ->)] Hq; [done |]. by apply lookup_insert_ne.
Qed.

Lemma insert_before_touches_only (new_code marker : doc) (path : string)
    (fs : gmap string doc) :
  touches_only path (insert_before new_code marker path) fs.
Proof.
  unfold touches_only, writes, files_after, trace_of.
  destruct (fs !! path) as [content|] eqn:Hc.
  - rewrite (insert_before_run _ _ _ _ _ Hc).
    destruct (Py.contains marker content); [right | left]; eauto.
  - rewrite (insert_before_missing _ _ _ _ Hc). by left.
Qed.

Lemma replace_between_touches_only (sm em tail : doc) (path payload : string)
    (fs : gmap string doc) :
  touches_only path (replace_between sm em tail path payload) fs.
Proof.
  unfold touches_only, writes, files_after, trace_of.
  destruct (fs !! path) as [content|] eqn:Hc; cycle 1.
  { destruct (replace_between_missing sm em tail path payload fs
                (or_introl Hc)) as [ex ->]. by left. }
  destruct (fs !! payload) as [replacement|] eqn:Hp; cycle 1.
  { destruct (replace_between_missing sm em tail path payload fs
                (or_intror Hp)) as [ex ->]. by left. }
  rewrite (replace_between_run _ _ _ _ _ _ _ _ Hc Hp). simpl.
  destruct (bool_decide (Py.find content sm 0 ≠ -1));
    destruct (bool_decide (Py.find content em (Py.find content sm 0) ≠ -1));
    simpl; first [right; eauto; fail | by left].
Qed.

Lemma fix_parser_touches_only
    (re_search : doc → bool → doc → option (nat * nat))
    (fs : gmap string doc) :
  touches_only Reports_js (fix_parser re_search) fs.
Proof.
  unfold touches_only, writes, files_after, trace_of.
  destruct (fs !! Reports_js) as [content|] eqn:Hc; cycle 1.
  { destruct (fix_parser_missing re_search fs (or_introl Hc)) as [ex ->].
    by left. }
  destruct (fs !! fix_parser_txt) as [new_function|] eqn:Hn; cycle 1.
  { destruct (fix_parser_missing re_search fs (or_intror Hn)) as [ex ->].
    by left. }
  rewrite (fix_parser_run _ _ _ _ Hc Hn).
  destruct (re_search fix_pattern false content) as [[first last]|].
  - right. eauto.
  - left. by destruct (re_search simple_pattern false content).
Qed.

(** X1: a run of a modifying script writes at most once, and only to the
    file it patches: the file system after the run is the one before it,
    with at most that one file replaced.  The files the replacement text
    is read from are left as they were. *)
Theorem modifying_scripts_touch_only_target
    (new_code : doc) (re_search : doc → bool → doc → option (nat * nat))
    (fs : gmap string doc) :
  touches_only Reports_js (add_pawnsposes_ai new_code) fs
  ∧ touches_only ReportDisplay_js update_training_section fs
  ∧ touches_only Reports_js (fix_parser re_search) fs
  ∧ files_after update_training_section fs !! TRAINING_OPTIONS_UPDATE_txt
      = fs !! TRAINING_OPTIONS_UPDATE_txt
  ∧ files_after (fix_parser re_search) fs !! fix_parser_txt
      = fs !! fix_parser_txt
  ∧ ∀ q, q ≠ Reports_js →
         files_after (add_pawnsposes_ai new_code) fs !! q = fs !! q.
Proof.
  split; [apply insert_before_touches_only |].
  split; [apply replace_between_touches_only |].
  split; [apply fix_parser_touches_only |].
  split; [| split].
  - apply (touches_only_frame ReportDisplay_js);
      [apply replace_between_touches_only | done].
  - apply (touches_only_frame Reports_js);
      [apply fix_parser_touches_only | done].
  - intros q Hq. apply (touches_only_frame Reports_js);
      [apply insert_before_touches_only | done].
Qed.

(** ** Missing files *)

(** X2: a script whose file to patch is missing raises
    [FileNotFoundError] for that path before anything is printed or
    written; the scripts that read a second file read it next, and raise
    for it when it alone is missing, before any search. *)
Theorem missing_file_raises
    (new_code : doc) (re_search : doc → bool → doc → option (nat * nat))
    (fs : gmap string doc) :
  (∀ marker path,
     fs !! path = None →
     run (insert_before new_code marker path) fs =
       (Raised (FileNotFoundError path), World fs []))
  ∧ (∀ sm em tail path payload,
       fs !! path = None →
       run (replace_between sm em tail path payload) fs =
         (Raised (FileNotFoundError path), World fs []))
  ∧ (∀ sm em tail path payload content,
       fs !! path = Some content →
       fs !! payload = None →
       run (replace_between sm em tail path payload) fs =
         (Raised (FileNotFoundError payload), World fs []))
  ∧ (fs !! Reports_js = None →
       run (fix_parser re_search) fs =
         (Raised (FileNotFoundError Reports_js), World fs [])
       ∧ run (check_parser re_search) fs =
           (Raised (FileNotFoundError Reports_js), World fs []))
  ∧ (∀ content,
       fs !! Reports_js = Some content →
       fs !! fix_parser_txt = None →
       run (fix_parser re_search) fs =
         (Raised (FileNotFoundError fix_parser_txt), World fs [])).
Proof.
  split; [intros; by apply insert_before_missing |].
  split; [| split; [| split]].
  - intros sm em tail path payload H.
    unfold replace_between. run_script. by rewrite H.
  - intros sm em tail path payload content H1 H2.
    unfold replace_between. run_script. rewrite H1. simpl. by rewrite H2.
  - intros H. split.
    + unfold fix_parser. run_script. by rewrite H.
    + unfold check_parser. run_script. by rewrite H.
  - intros content H1 H2.
    unfold fix_parser. run_script. rewrite H1. simpl. by rewrite H2.
Qed.

Lemma missing_file_raises_witness :
  let fs : gmap string doc := {[ ReportDisplay_js := str "<div></div>" ]} in
  run (add_pawnsposes_ai (str "// code")) fs =
    (Raised (FileNotFoundError Reports_js), World fs [])
  ∧ run update_training_section fs =
      (Raised (FileNotFoundError TRAINING_OPTIONS_UPDATE_txt), World fs [])
  ∧ run (check_parser Re.search) fs =
      (Raised (FileNotFoundError Reports_js), World fs []).
Proof.
  intros fs.
  destruct (missing_file_raises (str "// code") Re.search fs)
    as (Hadd & _ & Hupd & Hfix & _).
  split; [| split].
  - apply Hadd. by vm_compute.
  - apply (Hupd _ _ _ _ _ (str "<div></div>")); by vm_compute.
  - apply Hfix. by vm_compute.
Defined.

(** ** When a script writes *)

(** X3: [update_training_section.py] writes exactly when both files are
    there, the start marker occurs, and the end marker occurs at or after
    the first occurrence of the start marker; an end marker that occurs
    only before the start marker does not count. *)
Theorem replace_between_writes_iff
    (sm em tail : doc) (path payload : string) (fs : gmap string doc) :
  (∃ p text, Wrote p text
               ∈ trace_of (replace_between sm em tail path payload) fs)
  ↔ ∃ content replacement s e,
      fs !! path = Some content ∧ fs !! payload = Some replacement
      ∧ first_at sm content s ∧ first_from em content s e.
Proof.
  split.
  - intros (p & text & Hin). unfold trace_of in Hin.
    destruct (fs !! path) as [content|] eqn:Hc; cycle 1.
    { destruct (replace_between_missing sm em tail path payload fs
                  (or_introl Hc)) as [ex Hrun].
      rewrite Hrun in Hin. by apply elem_of_nil in Hin. }
    destruct (fs !! payload) as [replacement|] eqn:Hp; cycle 1.
    { destruct (replace_between_missing sm em tail path payload fs
                  (or_intror Hp)) as [ex Hrun].
      rewrite Hrun in Hin. by apply elem_of_nil in Hin. }
    destruct (decide (Py.find content sm 0 = -1
                      ∨ Py.find content em (Py.find content sm 0) = -1))
      as [Hfail|Hok].
    { destruct (replace_between_not_found sm em tail path payload fs content
                  replacement Hc Hp Hfail) as (t & Hrun & Hall).
      rewrite Hrun in Hin. simpl in Hin.
      apply elem_of_cons in Hin as [|Hin]; [done |].
      by apply no_write_in_prints in Hin. }
    assert (Py.find content sm 0 ≠ -1) as Hs by tauto.
    apply find_occurs in Hs as (s & Es & Hos).
    assert (Py.find content em (Z.of_nat s) ≠ -1) as He
      by (rewrite <- Es; tauto).
    apply find_occurs in He as (e & Ee & _).
    exists content, replacement, s, e.
    split; [done |]. split; [done |].
    split; [by apply first_at_find |].
    apply find_first_from; [| done].
    apply occurs_at_bound in Hos. lia.
  - intros (content & replacement & s & e & Hc & Hp & Hs & He).
    destruct (replace_between_found sm em tail path payload fs content
                replacement Hc Hp s e Hs He) as (_ & _ & Hrun).
    do 2 eexists. unfold trace_of. rewrite Hrun. simpl.
    apply list_elem_of_here.
Qed.

(** X4: [add_pawnsposes_ai.py] writes exactly when the file is there and
    holds the marker; it then prints its two lines of success after the
    write, and otherwise prints neither. *)
Theorem insert_before_writes_iff
    (new_code marker : doc) (path : string) (fs : gmap string doc) :
  ((∃ p text, Wrote p text ∈ trace_of (insert_before new_code marker path) fs)
   ↔ ∃ content j, fs !! path = Some content ∧ occurs_at marker content j)
  ∧ (Printed AddedFunctions ∈ trace_of (insert_before new_code marker path) fs
     ↔ ∃ text, trace_of (insert_before new_code marker path) fs =
                 [Wrote path text; Printed AddedFunctions;
                  Printed (AddedCharacters (len new_code))]).
Proof.
  unfold trace_of.
  destruct (fs !! path) as [content|] eqn:Hc.
  - rewrite (insert_before_run _ _ _ _ _ Hc).
    destruct (Py.contains marker content) eqn:E; simpl.
    + apply contains_occurs in E as [j Hj]. split; split.
      * intros _. eauto.
      * intros _. do 2 eexists. apply list_elem_of_here.
      * intros _. eauto.
      * intros _. apply list_elem_of_further, list_elem_of_here.
    + split; split.
      * intros (p & text & Hin).
        apply elem_of_cons in Hin as [|Hin]; [done |].
        by apply elem_of_nil in Hin.
      * intros (c & j & [= <-] & Hj).
        assert (Py.contains marker content = true) as E'
          by (apply contains_occurs; eauto).
        congruence.
      * intros Hin. apply elem_of_cons in Hin as [|Hin]; [done |].
        by apply elem_of_nil in Hin.
      * intros [text [=]].
  - rewrite (insert_before_missing _ _ _ _ Hc). simpl. split; split.
    + intros (p & text & Hin). by apply elem_of_nil in Hin.
    + intros (c & j & [=] & _).
    + intros Hin. by apply elem_of_nil in Hin.
    + intros [text [=]].
Qed.

(** X5: whatever follows, the new code and a line feed are put right
    before the first occurrence of the marker, and the text before it is
    kept; what follows the marker is patched in the same way and never gets
    shorter.  The line of success counts [len(new_code)] code points, but
    the document grows by at least one more. *)
Theorem insert_before_first_occurrence
    (new_code marker : doc) (path : string) (fs : gmap string doc)
    (content : doc) (i : nat) :
  fs !! path = Some content →
  first_at marker content i →
  marker ≠ [] →
  let inserted := new_code ++ [LF] in
  let rest := drop (i + length marker) content in
  ∃ rest',
    files_after (insert_before new_code marker path) fs !! path =
      Some (take i content ++ inserted ++ marker ++ rest')
    ∧ rest' = Py.replace rest marker (new_code ++ [LF] ++ marker)
    ∧ (length rest ≤ length rest')%nat
    ∧ len content + len new_code + 1
        ≤ len (take i content ++ inserted ++ marker ++ rest')
    ∧ Printed (AddedCharacters (len new_code))
        ∈ trace_of (insert_before new_code marker path) fs.
Proof.
  intros Hc Hfirst Hne inserted rest.
  pose proof (occurs_at_bound _ _ _ (proj1 Hfirst)) as Hb.
  set (new := new_code ++ [LF] ++ marker).
  assert (new = inserted ++ marker) as Hnew
    by (subst new inserted; by rewrite <- app_assoc).
  assert (length rest ≤ length (Py.replace rest marker new))%nat as Hgrow.
  { destruct marker as [|c m]; [done |]. unfold Py.replace.
    rewrite Hnew. apply replace_loop_grows. }
  exists (Py.replace rest marker new).
  unfold files_after, trace_of. rewrite (insert_before_run _ _ _ _ _ Hc).
  assert (Py.contains marker content = true) as ->
    by (apply contains_occurs; exists i; apply Hfirst).
  cbv zeta. fold new. split; [| split; [done | split; [done | split]]].
  - cbn [snd files]. rewrite lookup_insert_eq. f_equal.
    rewrite (replace_unfold content) by done.
    rewrite (proj2 (first_occurrence_Some _ _ _) Hfirst).
    fold rest. rewrite Hnew. by rewrite <- !app_assoc.
  - unfold len. subst inserted rest.
    rewrite !length_app, length_take. rewrite length_drop in Hgrow.
    simpl. lia.
  - cbn [snd trace]. do 2 apply list_elem_of_further. apply list_elem_of_here.
Qed.

Lemma insert_before_first_occurrence_witness :
  let content := str "A;" ++ export_marker ++ str "B;" ++ export_marker in
  let fs : gmap string doc := {[ Reports_js := content ]} in
  first_at export_marker content 2
  ∧ files_after (add_pawnsposes_ai (str "X")) fs !! Reports_js =
      Some (str "A;" ++ (str "X" ++ [LF]) ++ export_marker
            ++ str "B;" ++ (str "X" ++ [LF]) ++ export_marker).
Proof.
  intros content fs.
  assert (first_at export_marker content 2) as H1
    by (apply first_occurrence_Some; by vm_compute).
  split; [done |].
  destruct (insert_before_first_occurrence (str "X") export_marker Reports_js
              fs content 2) as (rest' & Hout & Hrest & _);
    [by vm_compute | done | done |].
  unfold add_pawnsposes_ai. rewrite Hout, Hrest. by vm_compute.
Defined.

(** ** Replacing the match of a pattern ([fix_parser.py]) *)

(** X6: when the pattern matches the span [first .. last) of the document,
    [fix_parser.py] writes the text before the match, the new function and
    the text after the match; it reports the offsets and both lengths
    before it writes, and the written document has length
    [len(content) - (last - first) + len(new_function)]. *)
Theorem fix_parser_splices_match
    (re_search : doc → bool → doc → option (nat * nat))
    (fs : gmap string doc) (content new_function : doc) (first last : nat) :
  fs !! Reports_js = Some content →
  fs !! fix_parser_txt = Some new_function →
  re_search fix_pattern false content = Some (first, last) →
  (first ≤ last ≤ length content)%nat →
  let new_content := take first content ++ new_function ++ drop last content in
  run (fix_parser re_search) fs =
    (Returned tt,
     World (<[Reports_js := new_content]> fs)
       [Printed (FoundFunctionAt (Z.of_nat first) (Z.of_nat last));
        Printed (OldFunctionLength (Z.of_nat last - Z.of_nat first));
        Printed (NewFunctionLength (len new_function));
        Wrote Reports_js new_content; Printed FunctionReplaced])
  ∧ len new_content =
      len content - (Z.of_nat last - Z.of_nat first) + len new_function.
Proof.
  intros Hc Hn Hm Hspan new_content. split.
  - rewrite (fix_parser_run _ _ _ _ Hc Hn), Hm. cbv zeta.
    rewrite slice_to_take, slice_from_drop, slice_take_drop by lia.
    subst new_content. rewrite <- app_assoc.
    replace (len (take (last - first) (drop first content)))
      with (Z.of_nat last - Z.of_nat first); [done |].
    unfold len. rewrite length_take, length_drop. lia.
  - subst new_content. unfold len.
    rewrite !length_app, length_take, length_drop. lia.
Qed.

Lemma fix_parser_splices_match_witness :
  Re.search fix_pattern false sample_reports = Some (0, 132)%nat
  ∧ files_after (fix_parser Re.search) sample_files !! Reports_js =
      Some (str "// fixed" ++ drop 132 sample_reports).
Proof.
  assert (Re.search fix_pattern false sample_reports = Some (0, 132)%nat)
    as Hm by by vm_compute.
  split; [done |].
  destruct (fix_parser_splices_match Re.search sample_files sample_reports
              (str "// fixed") 0 132) as [Hrun _];
    [by vm_compute | by vm_compute | done | vm_compute; lia |].
  unfold files_after. rewrite Hrun. cbn [snd files].
  by rewrite lookup_insert_eq.
Defined.

(** X7: [fix_parser.py] writes exactly when both files are there and the
    pattern matches, and it prints its line of success exactly when it has
    written. *)
Theorem fix_parser_writes_iff
    (re_search : doc → bool → doc → option (nat * nat))
    (fs : gmap string doc) :
  ((∃ p text, Wrote p text ∈ trace_of (fix_parser re_search) fs)
   ↔ ∃ content new_function span,
       fs !! Reports_js = Some content
       ∧ fs !! fix_parser_txt = Some new_function
       ∧ re_search fix_pattern false content = Some span)
  ∧ (Printed FunctionReplaced ∈ trace_of (fix_parser re_search) fs
     ↔ ∃ p text, Wrote p text ∈ trace_of (fix_parser re_search) fs).
Proof.
  unfold trace_of.
  destruct (fs !! Reports_js) as [content|] eqn:Hc; cycle 1.
  { destruct (fix_parser_missing re_search fs (or_introl Hc)) as [ex ->].
    simpl. split; split.
    - intros (p & text & Hin). by apply elem_of_nil in Hin.
    - intros (c & n & sp & [=] & _).
    - intros Hin. by apply elem_of_nil in Hin.
    - intros (p & text & Hin). by apply elem_of_nil in Hin. }
  destruct (fs !! fix_parser_txt) as [new_function|] eqn:Hn; cycle 1.
  { destruct (fix_parser_missing re_search fs (or_intror Hn)) as [ex ->].
    simpl. split; split.
    - intros (p & text & Hin). by apply elem_of_nil in Hin.
    - intros (c & n & sp & _ & [=] & _).
    - intros Hin. by apply elem_of_nil in Hin.
    - intros (p & text & Hin). by apply elem_of_nil in Hin. }
  rewrite (fix_parser_run _ _ _ _ Hc Hn).
  destruct (re_search fix_pattern false content) as [[first last]|] eqn:Hm.
  - cbv zeta. cbn [snd trace]. split; split.
    + intros _. eauto 6.
    + intros _. do 2 eexists. do 3 apply list_elem_of_further.
      apply list_elem_of_here.
    + intros _. do 2 eexists. do 3 apply list_elem_of_further.
      apply list_elem_of_here.
    + intros _. do 4 apply list_elem_of_further. apply list_elem_of_here.
  - cbn [snd trace].
    assert (∀ ev, ev ∈ [Printed FunctionNotFoundBang; Printed SearchingSimpler;
                        Printed (if re_search simple_pattern false content
                                    is Some _
                                 then DeclarationFound
                                 else DeclarationNotFound)] →
                  ∃ m, ev = Printed m ∧ m ≠ FunctionReplaced) as Hprints.
    { intros ev Hin. repeat (apply elem_of_cons in Hin as [->|Hin]).
      - eauto.
      - eauto.
      - destruct (re_search simple_pattern false content); eauto.
      - by apply elem_of_nil in Hin. }
    split; split.
    + intros (p & text & Hin). by apply Hprints in Hin as (m & [=] & _).
    + intros (c & n & sp & [= <-] & _ & Hsp). congruence.
    + intros Hin. apply Hprints in Hin as (m & [= <-] & Hne). done.
    + intros (p & text & Hin). by apply Hprints in Hin as (m & [=] & _).
Qed.

(** ** The three ways a run of [update_training_section.py] ends *)

(** X8: a run raises with nothing printed or written, or writes once and
    then prints its two lines of success, or prints that the section was
    not found, with two to four lines of diagnosis, and writes nothing. *)
Theorem replace_between_run_shapes
    (sm em tail : doc) (path payload : string) (fs : gmap string doc) :
  let p := replace_between sm em tail path payload in
  (∃ ex, run p fs = (Raised ex, World fs []))
  ∨ (∃ text n,
       run p fs =
         (Returned tt,
          World (<[path := text]> fs)
            [Wrote path text; Printed SectionUpdated;
             Printed (ReplacedCharacters n)]))
  ∨ (∃ t, run p fs = (Returned tt, World fs (Printed SectionNotFound :: t))
          ∧ Forall (λ ev, is_write ev = false) t
          ∧ (2 ≤ length t ≤ 4)%nat).
Proof.
  intros p. subst p.
  destruct (fs !! path) as [content|] eqn:Hc; cycle 1.
  { left. apply replace_between_missing. by left. }
  destruct (fs !! payload) as [replacement|] eqn:Hp; cycle 1.
  { left. apply replace_between_missing. by right. }
  right. rewrite (replace_between_run _ _ _ _ _ _ _ _ Hc Hp). cbv zeta.
  destruct (bool_decide (Py.find content sm 0 ≠ -1)) eqn:E1;
    destruct (bool_decide (Py.find content em (Py.find content sm 0) ≠ -1));
    simpl; first [left; eauto; fail | right];
    (eexists; split; [reflexivity |]; split;
       [repeat constructor | simpl; lia]).
Qed.

(** ** The diagnosis of [update_training_section.py] *)

Lemma find_from_last_code_point (content sub : doc) :
  (2 ≤ length sub)%nat → Py.find content sub (-1) = -1.
Proof.
  intros H. unfold Py.find.
  change (-1 <? 0) with true. cbv iota zeta.
  assert ((len content - Z.max 0 (-1 + len content) <? len sub) = true) as ->;
    [| done].
  apply Z.ltb_lt. unfold len. lia.
Qed.

(** X9: when the start marker does not occur, the script prints
    [start_idx=-1] and, as [end_idx], what a search for the end marker
    from the last code point of the document gives: [-1] for an end marker
    of two code points or more.  It prints no context and writes
    nothing. *)
Theorem replace_between_start_absent
    (sm em tail : doc) (path payload : string) (fs : gmap string doc)
    (content replacement : doc) :
  fs !! path = Some content →
  fs !! payload = Some replacement →
  absent_from sm content 0 →
  run (replace_between sm em tail path payload) fs =
    (Returned tt,
     World fs [Printed SectionNotFound; Printed (ShowStartIdx (-1));
               Printed (ShowEndIdx (Py.find content em (-1)))])
  ∧ ((2 ≤ length em)%nat → Py.find content em (-1) = -1).
Proof.
  intros Hc Hp Habs. split; [| apply find_from_last_code_point].
  rewrite (replace_between_run _ _ _ _ _ _ _ _ Hc Hp). cbv zeta.
  by rewrite (find_absent_anywhere sm content 0 Habs).
Qed.

Lemma replace_between_start_absent_witness :
  let fs : gmap string doc :=
    {[ ReportDisplay_js := str "<div></div>";
       TRAINING_OPTIONS_UPDATE_txt := str "<p/>" ]} in
  absent_from start_marker (str "<div></div>") 0
  ∧ run update_training_section fs =
      (Returned tt,
       World fs [Printed SectionNotFound; Printed (ShowStartIdx (-1));
                 Printed (ShowEndIdx (-1))]).
Proof.
  intros fs.
  assert (absent_from start_marker (str "<div></div>") 0) as H
    by (apply find_absent; by vm_compute).
  split; [done |].
  destruct (replace_between_start_absent start_marker end_marker section_tail
              ReportDisplay_js TRAINING_OPTIONS_UPDATE_txt fs
              (str "<div></div>") (str "<p/>")) as [Hrun Hend];
    [by vm_compute | by vm_compute | done |].
  unfold update_training_section. rewrite Hrun.
  rewrite Hend; [done | vm_compute; lia].
Defined.

(** X10: when the start marker occurs, first at [s], but the end marker
    does not occur from [s] on, the script prints [start_idx=s],
    [end_idx=-1], the position again, and as context the up to 100 code
    points from [s] on: the start marker first, when it is no longer than
    that.  It writes nothing. *)
Theorem replace_between_end_absent
    (sm em tail : doc) (path payload : string) (fs : gmap string doc)
    (content replacement : doc) (s : nat) :
  fs !! path = Some content →
  fs !! payload = Some replacement →
  first_at sm content s →
  absent_from em content s →
  let context := take 100 (drop s content) in
  run (replace_between sm em tail path payload) fs =
    (Returned tt,
     World fs [Printed SectionNotFound; Printed (ShowStartIdx (Z.of_nat s));
               Printed (ShowEndIdx (-1)); Printed (FoundStartAt (Z.of_nat s));
               Printed (ShowContext context)])
  ∧ ((length sm ≤ 100)%nat → ∃ more, context = sm ++ more)
  ∧ length context = Nat.min 100 (length content - s).
Proof.
  intros Hc Hp Hs He context.
  pose proof (occurs_at_bound _ _ _ (proj1 Hs)) as Hb.
  split; [| split].
  - rewrite (replace_between_run _ _ _ _ _ _ _ _ Hc Hp). cbv zeta.
    rewrite (proj1 (first_at_find _ _ _) Hs).
    rewrite (proj2 (find_absent em content s) He).
    rewrite (bool_decide_eq_true_2 (Z.of_nat s ≠ -1)) by lia.
    rewrite (bool_decide_eq_false_2 (-1 ≠ -1)) by (intros H; by apply H).
    simpl. do 3 f_equal.
    unfold Py.slice, Py.adjust, len.
    destruct (Z.ltb_spec (Z.of_nat s) 0); [lia |].
    destruct (Z.ltb_spec (Z.of_nat s + 100) 0); [lia |].
    subst context. rewrite (Z.min_l (Z.of_nat s)) by lia. rewrite Nat2Z.id.
    destruct (decide (s + 100 ≤ length content)%nat).
    + rewrite Z.min_l by lia.
      by replace (Z.to_nat (Z.of_nat s + 100 - Z.of_nat s)) with 100%nat by lia.
    + rewrite Z.min_r by lia.
      rewrite !take_ge; [done | |]; rewrite length_drop; lia.
  - intros Hlen. destruct Hs as [(pre & post & -> & <-) _].
    subst context. rewrite drop_app_length.
    exists (take (100 - length sm) post).
    by rewrite take_app, (take_ge sm) by lia.
  - subst context. by rewrite length_take, length_drop.
Qed.

Lemma replace_between_end_absent_witness :
  let content := str "<main>" ++ start_marker ++ str "</main>" in
  let fs : gmap string doc :=
    {[ ReportDisplay_js := content;
       TRAINING_OPTIONS_UPDATE_txt := str "NEW" ]} in
  first_at start_marker content 6
  ∧ absent_from end_marker content 6
  ∧ printed update_training_section fs =
      [SectionNotFound; ShowStartIdx 6; ShowEndIdx (-1); FoundStartAt 6;
       ShowContext (start_marker ++ str "</main>")].
Proof.
  intros content fs.
  assert (first_at start_marker content 6) as H1
    by (apply first_occurrence_Some; by vm_compute).
  assert (absent_from end_marker content 6) as H2
    by (apply find_absent; by vm_compute).
  split; [done |]. split; [done |].
  destruct (replace_between_end_absent start_marker end_marker section_tail
              ReportDisplay_js TRAINING_OPTIONS_UPDATE_txt fs content
              (str "NEW") 6) as [Hrun _];
    [by vm_compute | by vm_compute | done | done |].
  unfold printed, trace_of, update_training_section. rewrite Hrun.
  by vm_compute.
Defined.

(** X11: for the two markers of [update_training_section.py], in any
    document, the end marker found begins after the whole match of the
    start marker: the span the script replaces holds the start marker, then
    the end marker, and is at least 155 code points long. *)
Theorem update_training_section_span_holds_both_markers
    (content : doc) (s e : nat) :
  first_at start_marker content s →
  first_from end_marker content s e →
  (s + length start_marker ≤ e)%nat
  ∧ 155 ≤ Z.of_nat e + len end_marker - Z.of_nat s.
Proof.
  intros [Hs _] (He & Hse & _).
  assert (s + length start_marker ≤ e)%nat as Hle.
  { destruct (decide (s + length start_marker ≤ e)%nat) as [|Hlt]; [done |].
    exfalso.
    apply (markers_apart_sound start_marker end_marker content s e);
      [apply script_markers_apart | done | lia | done]. }
  split; [done |].
  assert (length start_marker = 84%nat) as Hsm by by vm_compute.
  assert (len end_marker = 71) as -> by by vm_compute. lia.
Qed.

Lemma update_training_section_span_holds_both_markers_witness :
  let content :=
    str "<main>" ++ start_marker ++ str "OLD" ++ end_marker ++ str "</main>" in
  first_at start_marker content 6
  ∧ first_from end_marker content 6 93
  ∧ (6 + length start_marker ≤ 93)%nat.
Proof.
  intros content.
  assert (first_at start_marker content 6) as H1
    by (apply first_occurrence_Some; by vm_compute).
  assert (first_from end_marker content 6 93) as H2
    by (apply find_first_from; vm_compute; first [reflexivity | lia]).
  split; [done |]. split; [done |].
  apply (update_training_section_span_holds_both_markers content 6 93 H1 H2).
Defined.

(** ** What [check_parser.py] shows *)

Lemma slice_to_any (s : doc) (k : nat) : Py.slice_to s (Z.of_nat k) = take k s.
Proof.
  unfold Py.slice_to, Py.adjust, len.
  destruct (Z.ltb_spec (Z.of_nat k) 0); [lia |].
  destruct (decide (k ≤ length s)%nat).
  - f_equal. lia.
  - rewrite !take_ge; [done | lia | lia].
Qed.

Lemma slice_from_end (s : doc) (k : nat) :
  (0 < k)%nat → Py.slice_from s (- Z.of_nat k) = drop (length s - k) s.
Proof.
  intros Hk. unfold Py.slice_from, Py.adjust, len.
  destruct (Z.ltb_spec (- Z.of_nat k) 0); [| lia]. f_equal. lia.
Qed.

(** X12: when the pattern matches the span [first .. last) of the
    document, [check_parser.py] prints the length of the match, its first
    2000 code points and its last 1000.  A match of 1000 code points or
    fewer is therefore shown whole, twice; only from 3000 code points on
    is something left out, the [len - 3000] code points in between. *)
Theorem check_parser_excerpts
    (re_search : doc → bool → doc → option (nat * nat))
    (fs : gmap string doc) (content : doc) (first last : nat) :
  fs !! Reports_js = Some content →
  re_search check_pattern true content = Some (first, last) →
  (first ≤ last ≤ length content)%nat →
  let func := take (last - first) (drop first content) in
  let head := take 2000 func in
  let tail := drop (length func - 1000) func in
  run (check_parser re_search) fs =
    (Returned tt,
     World fs
       [Printed (FunctionLength (Z.of_nat last - Z.of_nat first));
        Printed FunctionStartBanner; Printed (ShowText head);
        Printed MiddleContentBanner; Printed (ShowText tail);
        Printed FunctionEndBanner])
  ∧ ((length func ≤ 1000)%nat → head = func ∧ tail = func)
  ∧ ((3000 ≤ length func)%nat →
       func = head ++ take (length func - 3000) (drop 2000 func) ++ tail).
Proof.
  intros Hc Hm Hspan func head tail.
  assert (length func = (last - first)%nat) as Hlen
    by (subst func; rewrite length_take, length_drop; lia).
  split; [| split].
  - unfold check_parser. run_script. rewrite Hc. simpl. rewrite Hm. simpl.
    rewrite slice_take_drop by lia. fold func.
    change 2000 with (Z.of_nat 2000). rewrite slice_to_any.
    change (-1000) with (- Z.of_nat 1000). rewrite slice_from_end by lia.
    unfold len. subst head tail. rewrite !Hlen.
    by replace (Z.of_nat (last - first)) with (Z.of_nat last - Z.of_nat first)
      by lia.
  - intros Hshort. subst head tail. split.
    + apply take_ge. lia.
    + by replace (length func - 1000)%nat with 0%nat by lia.
  - intros Hlong. subst head tail.
    rewrite <- (take_drop 2000 func) at 1. f_equal.
    rewrite <- (take_drop (length func - 3000) (drop 2000 func)) at 1.
    f_equal. rewrite drop_drop. f_equal. lia.
Qed.

Lemma check_parser_excerpts_witness :
  Re.search check_pattern true sample_reports = Some (133, 224)%nat
  ∧ printed (check_parser Re.search) sample_files =
      let func := take 91 (drop 133 sample_reports) in
      [FunctionLength 91; FunctionStartBanner; ShowText func;
       MiddleContentBanner; ShowText func; FunctionEndBanner].
Proof.
  assert (Re.search check_pattern true sample_reports = Some (133, 224)%nat)
    as Hm by by vm_compute.
  split; [done |].
  destruct (check_parser_excerpts Re.search sample_files sample_reports
              133 224) as [Hrun _];
    [by vm_compute | done | vm_compute; lia |].
  unfold printed, trace_of. rewrite Hrun. by vm_compute.
Defined.

(** ** The library calls, as the scripts use them *)

(** X13: [content.find(sub, start)], for a start offset within the
    document, answers the offset of the leftmost occurrence of [sub] that
    begins at or after [start], and [-1] exactly when there is none; a
    start offset past the end gives [-1], also for an empty [sub]. *)
Theorem find_leftmost_from (content sub : doc) (from : nat) :
  ((from ≤ length content)%nat →
     ∀ i, Py.find content sub (Z.of_nat from) = Z.of_nat i
          ↔ first_from sub content from i)
  ∧ (Py.find content sub (Z.of_nat from) = -1 ↔ absent_from sub content from)
  ∧ ((length content < from)%nat → Py.find content sub (Z.of_nat from) = -1)
  ∧ (Py.find content sub (Z.of_nat from) = -1
     ∨ ∃ i, Py.find content sub (Z.of_nat from) = Z.of_nat i
            ∧ (from ≤ i)%nat ∧ (i + length sub ≤ length content)%nat).
Proof.
  split; [intros H i; by apply find_first_from |].
  split; [apply find_absent |].
  split; [intros H; apply find_beyond; unfold len; lia |].
  destruct (find_range sub content (Z.of_nat from)) as [|(H0 & Hb & Hle)];
    [by left | right].
  exists (Z.to_nat (Py.find content sub (Z.of_nat from))).
  unfold len in *. lia.
Qed.

Lemma find_leftmost_from_witness :
  Py.find (str "abXb") (str "b") 2 = 3
  ∧ first_from (str "b") (str "abXb") 2 3.
Proof.
  assert (Py.find (str "abXb") (str "b") 2 = 3) as H by by vm_compute.
  split; [done |].
  destruct (find_leftmost_from (str "abXb") (str "b") 2) as [Hfound _].
  apply Hfound; [vm_compute; lia | done].
Defined.

(** X14: [content.replace(old, new)], for a non-empty [old], leaves a text
    without [old] as it is, and otherwise gives the text before the
    leftmost occurrence, then [new], then the rest of the text after that
    occurrence, replaced in the same way: every occurrence met in a scan
    from the left is replaced, and none is left for want of fuel. *)
Theorem replace_scans_all (content old new : doc) :
  old ≠ [] →
  (absent_from old content 0 → Py.replace content old new = content)
  ∧ (∀ i, first_at old content i →
          Py.replace content old new =
            take i content ++ new
            ++ Py.replace (drop (i + length old) content) old new).
Proof.
  intros Hold. split.
  - intros Habs. rewrite replace_unfold by done.
    assert (Py.first_occurrence old content = None) as ->; [| done].
    apply first_occurrence_None. intros j. apply Habs. lia.
  - intros i Hi. rewrite replace_unfold by done.
    by rewrite (proj2 (first_occurrence_Some _ _ _) Hi).
Qed.

Lemma replace_scans_all_witness :
  str "b" ≠ []
  ∧ Py.replace (str "abXb") (str "b") (str "--") = str "a--X--".
Proof.
  split; [done |].
  destruct (replace_scans_all (str "abXb") (str "b") (str "--")) as [_ H];
    [done |].
  rewrite (H 1%nat) by (apply first_occurrence_Some; by vm_compute).
  by vm_compute.
Defined.

(** ** Paths *)

Lemma dom_after (target : string) (p : script unit) (fs : gmap string doc) :
  touches_only target p fs →
  (fs !! target = None → writes p fs = []) →
  dom (files_after p fs) = dom fs.
Proof.
  intros [[_ ->]|(text & Hw & ->)] Hmissing; [done |].
  destruct (fs !! target) as [old|] eqn:Ht.
  - apply dom_insert_lookup_L. eauto.
  - rewrite Hmissing in Hw; done.
Qed.

(** X15: no script creates or removes a file: after a run of any of the
    four, raised or returned, the file system holds the paths it held
    before. *)
Theorem scripts_keep_paths
    (new_code : doc) (re_search : doc → bool → doc → option (nat * nat))
    (fs : gmap string doc) :
  dom (files_after (add_pawnsposes_ai new_code) fs) = dom fs
  ∧ dom (files_after update_training_section fs) = dom fs
  ∧ dom (files_after (fix_parser re_search) fs) = dom fs
  ∧ dom (files_after (check_parser re_search) fs) = dom fs.
Proof.
  split; [| split; [| split]].
  - apply (dom_after Reports_js); [apply insert_before_touches_only |].
    intros H. unfold writes, trace_of, add_pawnsposes_ai.
    by rewrite (insert_before_missing _ _ _ _ H).
  - apply (dom_after ReportDisplay_js);
      [apply replace_between_touches_only |].
    intros H. unfold writes, trace_of, update_training_section.
    by destruct (replace_between_missing start_marker end_marker section_tail
                   ReportDisplay_js TRAINING_OPTIONS_UPDATE_txt fs
                   (or_introl H)) as [ex ->].
  - apply (dom_after Reports_js); [apply fix_parser_touches_only |].
    intros H. unfold writes, trace_of.
    by destruct (fix_parser_missing re_search fs (or_introl H)) as [ex ->].
  - destruct (check_parser_run re_search fs) as (o & t & Hrun & _).
    unfold files_after. by rewrite Hrun.
Qed.
